(** * cyphernodeconf: the provisioning controller of [lib/app.js]

    A shallow embedding of the [App] class of [lib/app.js] and the proofs of
    the properties its specification states about it.

    - JavaScript strings are sequences of UTF-16 code units ([jsstring]);
      property names, which the source always writes as literals, are Rocq
      strings.
    - JavaScript values are the inductive [value]; arrays and objects carry the
      reference they live at, so that [===] compares them by identity.
    - [this], [process.env], the disk, the console and the operator at the
      keyboard are the fields of one record [state], threaded through the
      monad [M]; an [outcome] is a normal return, a thrown error, a
      [process.exit], or a prompt that waits for input that never comes.
    - The modules [app.js] requires ([config.js], [apikey.js], [cert.js],
      [archive.js], [htpasswd.js], the prompters, [ejs], [path], ...) are the
      fields of the record [External]: every theorem holds for all of them. *)

From Stdlib Require Import ZArith List Ascii String Lia.
From stdpp Require Import base option list strings gmap fin_maps pretty.

Set Warnings "-register-all".

Open Scope string_scope.
Open Scope list_scope.
Open Scope Z_scope.

(** ** Strings *)

(** A JavaScript string: its UTF-16 code units. *)
Definition jsstring := list N.

(** The string a literal of the source denotes (ASCII literals only). *)
Definition js (s : string) : jsstring :=
  map N_of_ascii (list_ascii_of_string s).

(** ECMAScript [WhiteSpace] and [LineTerminator] code points: what
    [String.prototype.trim] strips. *)
Definition is_whitespace (c : N) : bool :=
  ((9 <=? c) && (c <=? 13) || (c =? 32) || (c =? 160) || (c =? 5760)
   || (8192 <=? c) && (c <=? 8202) || (c =? 8232) || (c =? 8233)
   || (c =? 8239) || (c =? 8287) || (c =? 12288) || (c =? 65279))%N.

Fixpoint trimStart (s : jsstring) : jsstring :=
  match s with
  | c :: s' => if is_whitespace c then trimStart s' else s
  | [] => []
  end.

Definition trimEnd (s : jsstring) : jsstring := rev (trimStart (rev s)).

(** [s.trim()] *)
Definition trim (s : jsstring) : jsstring := trimEnd (trimStart s).

(** ** Values *)

(** Numbers are modelled at the integers, the only numbers [app.js] itself
    produces or tests ([length], [-1], [0], a completion code): [VNum n]
    stands for the number [n] where JavaScript has it exactly and prints
    it digit by digit, which is below [2^53] in absolute value. A fraction,
    or a number from [1e21] on, which prints with an exponent, has no
    [VNum]. *)
Inductive value :=
| VUndefined
| VNull
| VBool (b : bool)
| VNum (n : Z)
| VStr (s : jsstring)
| VArr (ref : N) (items : list value)
| VObj (ref : N) (props : list (string * value)).

#[global] Instance value_inhabited : Inhabited value := populate VUndefined.

(** ToBoolean *)
Definition truthy (v : value) : bool :=
  match v with
  | VUndefined | VNull => false
  | VBool b => b
  | VNum n => negb (n =? 0)%Z
  | VStr s => match s with [] => false | _ => true end
  | VArr _ _ | VObj _ _ => true
  end.

Definition jsstring_eqb (a b : jsstring) : bool := bool_decide (a = b).

(** [a === b]: by value on primitives, by reference on arrays and objects. *)
Definition strict_eq (a b : value) : bool :=
  match a, b with
  | VUndefined, VUndefined => true
  | VNull, VNull => true
  | VBool x, VBool y => bool_decide (x = y)
  | VNum x, VNum y => (x =? y)%Z
  | VStr x, VStr y => jsstring_eqb x y
  | VArr r _, VArr r' _ => (r =? r')%N
  | VObj r _, VObj r' _ => (r =? r')%N
  | _, _ => false
  end.

(** [a !== b] *)
Definition strict_neq (a b : value) : bool := negb (strict_eq a b).

(** [a || b] *)
Definition js_or (a b : value) : value := if truthy a then a else b.

Fixpoint assoc (k : string) (props : list (string * value)) : option value :=
  match props with
  | [] => None
  | (k', v) :: rest => if bool_decide (k = k') then Some v else assoc k rest
  end.

(** [v.k] for a data property [k]: [None] is the TypeError of reading a
    property of [undefined] or [null]. *)
Definition member (v : value) (k : string) : option value :=
  match v with
  | VUndefined | VNull => None
  | VObj _ props => Some (default VUndefined (assoc k props))
  | VArr _ items =>
      Some (if bool_decide (k = "length") then VNum (Z.of_nat (length items)) else VUndefined)
  | VStr s =>
      Some (if bool_decide (k = "length") then VNum (Z.of_nat (length s)) else VUndefined)
  | VBool _ | VNum _ => Some VUndefined
  end.

(** [o[k]] on an object used as a map: an absent property reads [undefined]. *)
Definition getp (o : gmap string value) (k : string) : value :=
  default VUndefined (o !! k).

(** [o.hasOwnProperty(k)] *)
Definition hasOwnProperty (o : gmap string value) (k : string) : bool :=
  bool_decide (is_Some (o !! k)).

(** [sep]-separated concatenation. *)
Fixpoint join_strings (sep : jsstring) (l : list jsstring) : jsstring :=
  match l with
  | [] => []
  | [x] => x
  | x :: rest => x ++ sep ++ join_strings sep rest
  end.

(** ToString; inside [Array.prototype.join], [undefined] and [null] elements
    give the empty string. A number prints as its decimal digits (see
    [value] for the numbers a [VNum] stands for). *)
Fixpoint to_string (v : value) : jsstring :=
  match v with
  | VUndefined => js "undefined"
  | VNull => js "null"
  | VBool true => js "true"
  | VBool false => js "false"
  | VNum n => js (pretty n)
  | VStr s => s
  | VArr _ items =>
      join_strings (js ",")
        (map (fun x => match x with
                       | VUndefined | VNull => []
                       | _ => to_string x
                       end) items)
  | VObj _ _ => js "[object Object]"
  end.

(** [items.join(sep)] *)
Definition array_join (sep : jsstring) (items : list value) : jsstring :=
  join_strings sep
    (map (fun x => match x with
                   | VUndefined | VNull => []
                   | _ => to_string x
                   end) items).

(** [trimFilter(input)]: the input, converted to a string by appending the
    empty string to it, and trimmed. *)
Definition trimFilter (input : value) : value := VStr (trim (to_string input)).

(** ** The objects of [app.js] and of the modules it requires *)

(** An entry of [features.json]; [checked] is filled in by
    [setupConfigArchive]. *)
Record Feature := { f_value : value; f_checked : value }.

(** A schema validation error, as [start] reads it: [error.keyword] and
    [error.params] ([None]: no params), an object with or without
    [missingProperty]. *)
Record ValidationError := {
  keyword : value;
  params : option (gmap string value)
}.

(** [this.config]: the document and the errors of its schema check. *)
Record Config := {
  data : gmap string value;
  validateErrors : option (list ValidationError)
}.

(** A question handed to [inquirer.prompt]. *)
Record Question := {
  q_type : string;
  q_name : string;
  q_message : jsstring;
  q_default : value;
  q_filter : option (value -> value)
}.

(** The [this] of the [App] methods. *)
Record App := {
  features : list Feature;
  sessionData : gmap string value;
  config : Config;
  help : value
}.

(** A module of the [prompters] directory: its template namespace, its
    prompts for the current [App], and its templates for the final
    document. *)
Record Prompter := {
  pr_name : jsstring;
  pr_prompts : App -> list Question;
  pr_templates : gmap string value -> list jsstring
}.

(** An [ApiKey] after [setId], [setGroups] and [randomiseKey]. *)
Record ApiKey := {
  id : jsstring;
  groups : list jsstring;
  key : jsstring
}.

(** What [cert.create] resolves to: [result.code], and the text
    [result.key.toString()] and [result.cert.toString()] give ([None]: the
    field is missing, and [toString] on it is a TypeError). *)
Record CertResult := {
  code : value;
  cert_key : option jsstring;
  cert_cert : option jsstring
}.

(** A path of the disk holds a file or a directory. *)
Inductive Node :=
| File (content : jsstring)
| Dir.

(** The effect of one archive write: the boolean the call returns and what
    the archive's path holds afterwards. *)
Record WriteResult := {
  wr_ok : bool;
  wr_node : option Node
}.

(** The modules [app.js] requires. None of them is part of [app.js]; each is
    taken as it is called there.
    - [htpasswd]: the admin hash of a password;
    - [path_join], [path_dirname], [dirname]: [path.join], [path.dirname],
      [__dirname];
    - [Config_new]: the state of [new Config()]; [Config_deserialize node
      password]: [config.deserialize] on what the archive path holds, the
      error it throws or the configuration it loads; [Config_serialize]:
      [config.serialize];
    - [ApiKey_randomiseKey n]: the secret the [n]-th random draw of the
      process yields; [ApiKey_getConfigEntry], [ApiKey_getClientInformation];
    - [Cert_cns], [Cert_create]: [cert.cns], and [cert.create], which throws
      or resolves to a result;
    - [Archive_writeEntry node password entry content]: [archive.writeEntry]
      on what the archive path holds;
    - [ejs_renderFile]: the rendered text or the error thrown;
    - [name_generate], [random_color]: [name.generate()] and [randomColor()]
      at the [n]-th random draw;
    - [splash_show]: the lines the splash screen prints. *)
Record External := {
  path_join : list jsstring -> jsstring;
  path_dirname : jsstring -> jsstring;
  dirname : jsstring;
  features_json : list Feature;
  help_json : value;
  prompters : list Prompter;
  name_generate : nat -> jsstring;
  random_color : nat -> jsstring;
  splash_show : list jsstring;
  Config_new : Config;
  Config_deserialize : option Node -> value -> string + Config;
  Config_serialize : gmap string value -> option Node -> value -> WriteResult;
  htpasswd : value -> value;
  ApiKey_randomiseKey : nat -> jsstring;
  ApiKey_getConfigEntry : ApiKey -> value;
  ApiKey_getClientInformation : ApiKey -> value;
  Cert_cns : value -> value;
  Cert_create : value -> string + CertResult;
  Archive_writeEntry : option Node -> value -> jsstring -> value -> WriteResult;
  ejs_renderFile : jsstring -> gmap string value -> string + jsstring
}.

(** ** The state of a run *)

(** [this], the environment, the disk, the console (lines printed, oldest
    first, without their colours), the answers the operator will give to the
    next prompts, the number of random draws made, and the next free
    reference. *)
Record state := {
  this : App;
  env : gmap string jsstring;
  fs : gmap jsstring Node;
  console : list jsstring;
  keyboard : list value;
  rng : nat;
  next_ref : N
}.

Definition set_this (f : App -> App) (s : state) : state :=
  {| this := f (this s); env := env s; fs := fs s; console := console s;
     keyboard := keyboard s; rng := rng s; next_ref := next_ref s |}.

Definition set_fs (f : gmap jsstring Node -> gmap jsstring Node) (s : state) : state :=
  {| this := this s; env := env s; fs := f (fs s); console := console s;
     keyboard := keyboard s; rng := rng s; next_ref := next_ref s |}.

Definition set_console (f : list jsstring -> list jsstring) (s : state) : state :=
  {| this := this s; env := env s; fs := fs s; console := f (console s);
     keyboard := keyboard s; rng := rng s; next_ref := next_ref s |}.

Definition set_keyboard (k : list value) (s : state) : state :=
  {| this := this s; env := env s; fs := fs s; console := console s;
     keyboard := k; rng := rng s; next_ref := next_ref s |}.

Definition set_rng (n : nat) (s : state) : state :=
  {| this := this s; env := env s; fs := fs s; console := console s;
     keyboard := keyboard s; rng := n; next_ref := next_ref s |}.

Definition set_next_ref (r : N) (s : state) : state :=
  {| this := this s; env := env s; fs := fs s; console := console s;
     keyboard := keyboard s; rng := rng s; next_ref := r |}.

Definition set_features (f : list Feature) (a : App) : App :=
  {| features := f; sessionData := sessionData a; config := config a; help := help a |}.

Definition set_sessionData (f : gmap string value -> gmap string value) (a : App) : App :=
  {| features := features a; sessionData := f (sessionData a); config := config a;
     help := help a |}.

Definition set_config (c : Config) (a : App) : App :=
  {| features := features a; sessionData := sessionData a; config := c; help := help a |}.

Definition set_help (h : value) (a : App) : App :=
  {| features := features a; sessionData := sessionData a; config := config a; help := h |}.

Definition set_data (f : gmap string value -> gmap string value) (a : App) : App :=
  set_config {| data := f (data (config a)); validateErrors := validateErrors (config a) |} a.

(** ** The monad of the methods *)

(** How a computation ends: it returns, it throws (the promise rejects), the
    process exits with a status, or it waits at a prompt for an answer that
    does not come. *)
Inductive outcome (A : Type) :=
| Ret (a : A) (s : state)
| Throw (e : string) (s : state)
| Exit (status : Z) (s : state)
| Blocked (s : state).
Arguments Ret {A} a s.
Arguments Throw {A} e s.
Arguments Exit {A} status s.
Arguments Blocked {A} s.

Definition M (A : Type) : Type := state -> outcome A.

Declare Scope M_scope.

Definition ret {A} (a : A) : M A := fun s => Ret a s.

Definition bind {A B} (m : M A) (k : A -> M B) : M B :=
  fun s =>
    match m s with
    | Ret a s' => k a s'
    | Throw e s' => Throw e s'
    | Exit c s' => Exit c s'
    | Blocked s' => Blocked s'
    end.

Notation "x <- m ;; k" := (bind m (fun x => k))
  (at level 100, m at next level, k at level 200, right associativity) : M_scope.
Notation "m ;; k" := (bind m (fun _ => k))
  (at level 100, k at level 200, right associativity) : M_scope.
Delimit Scope M_scope with M.
Open Scope M_scope.

(** The state in which a computation ends, however it ends. *)
Definition final {A} (o : outcome A) : state :=
  match o with
  | Ret _ s | Throw _ s | Exit _ s | Blocked s => s
  end.

Definition get : M state := fun s => Ret s s.
Definition modify (f : state -> state) : M unit := fun s => Ret tt (f s).
Definition throw {A} (e : string) : M A := fun s => Throw e s.

(** [try { m } catch (e) { h e }] *)
Definition try_catch {A} (m : M A) (h : string -> M A) : M A :=
  fun s =>
    match m s with
    | Throw e s' => h e s'
    | o => o
    end.

(** [process.exit(code)]; without an argument the status is
    [process.exitCode], which nothing in the program sets: 0. *)
Definition process_exit {A} (code : option Z) : M A :=
  fun s => Exit (default 0 code) s.

(** [console.log(line)] (the chalk styling of the line is not recorded). *)
Definition console_log (line : jsstring) : M unit :=
  modify (set_console (fun c => c ++ [line])).

(** A value that must not be [None]: the TypeError of the source. *)
Definition non_null {A} (o : option A) : M A :=
  match o with
  | Some a => ret a
  | None => throw "TypeError"
  end.

(** *** The disk

    The disk maps the paths that exist to what they hold. Paths are taken
    in the form [path.join] and [path.dirname] give them: absolute, without
    a trailing [/]. On a disk of the operating system every path that
    exists lies in a directory that exists, up to the root: [existsSync] and
    [unlinkSync] look the path up as it is, [writeFileSync] and [mkdirSync]
    also look at the directories above it. *)

(** [r] from its first [/] on. *)
Fixpoint from_slash (r : jsstring) : jsstring :=
  match r with
  | [] => []
  | c :: r' => if (c =? 47)%N then r else from_slash r'
  end.

(** The directory a path lies in: the path up to its last [/]; the root for
    a path right under the root and for the root itself. *)
Definition parent (p : jsstring) : jsstring :=
  match from_slash (rev p) with
  | [] => js "."
  | [_] => js "/"
  | _ :: r => rev r
  end.

(** What the nearest existing path at or above [q] holds; a path has no
    more directories above it than it has characters. *)
Fixpoint nearest (fuel : nat) (d : gmap jsstring Node) (q : jsstring) : option Node :=
  match d !! q with
  | Some n => Some n
  | None =>
      match fuel with
      | O => None
      | S k => nearest k d (parent q)
      end
  end.

(** The error of entering [q] when [q] is not a directory: a file is in
    the way, or nothing is there. *)
Definition dir_error (d : gmap jsstring Node) (q : jsstring) : option string :=
  match d !! q with
  | Some Dir => None
  | _ =>
      match nearest (length q) d q with
      | Some (File _) => Some "ENOTDIR"
      | _ => Some "ENOENT"
      end
  end.

(** The disk with the directory [q] and every missing directory above it. *)
Fixpoint mkdirs (fuel : nat) (q : jsstring) (d : gmap jsstring Node) : gmap jsstring Node :=
  match d !! q with
  | Some _ => d
  | None =>
      <[q := Dir]> (match fuel with
                    | O => d
                    | S k => mkdirs k (parent q) d
                    end)
  end.

Definition existsSync (p : jsstring) : M bool :=
  fun s => Ret (bool_decide (is_Some (fs s !! p))) s.

(** [fs.unlinkSync(p)]: removes a file; throws on a directory, and on
    nothing with the error of the directory above when that is not one. *)
Definition unlinkSync (p : jsstring) : M unit :=
  fun s =>
    match fs s !! p with
    | Some (File _) => Ret tt (set_fs (delete p) s)
    | Some Dir => Throw "EISDIR" s
    | None => Throw (default "ENOENT" (dir_error (fs s) (parent p))) s
    end.

(** [fs.writeFileSync(p, content)]: creates or replaces the file in the
    directory it lies in; throws when that is not a directory, and on a
    directory. *)
Definition writeFileSync (p : jsstring) (content : jsstring) : M unit :=
  fun s =>
    match dir_error (fs s) (parent p) with
    | Some e => Throw e s
    | None =>
        match fs s !! p with
        | Some Dir => Throw "EISDIR" s
        | _ => Ret tt (set_fs (insert p (File content)) s)
        end
    end.

(** [fs.mkdirSync(p, { recursive: true })]: creates [p] and the missing
    directories above it; throws when [p] is a file or a file is in the
    way. *)
Definition mkdirSync (p : jsstring) : M unit :=
  fun s =>
    match nearest (length p) (fs s) p with
    | Some (File _) =>
        Throw (if bool_decide (is_Some (fs s !! p)) then "EEXIST" else "ENOTDIR") s
    | _ => Ret tt (set_fs (mkdirs (length p) p) s)
    end.

(** *** The operator *)

(** One question of [inquirer.prompt]: the operator's next answer, through
    the question's filter. *)
Definition ask (q : Question) : M (string * value) :=
  fun s =>
    match keyboard s with
    | [] => Blocked s
    | a :: rest =>
        Ret (q_name q, match q_filter q with Some f => f a | None => a end)
            (set_keyboard rest s)
    end.

(** [inquirer.prompt(questions)]: the questions in order; the answers, by
    question name, a later answer replacing an earlier one of that name. *)
Fixpoint inquirer_prompt (questions : list Question) : M (gmap string value) :=
  match questions with
  | [] => ret ∅
  | q :: rest =>
      a <- ask q ;;
      r <- inquirer_prompt rest ;;
      ret (match r !! a.1 with Some _ => r | None => <[a.1 := a.2]> r end)
  end.

(** [App.prompt(questions)]; every call site passes an array. *)
Definition prompt (questions : list Question) : M (gmap string value) :=
  inquirer_prompt questions.

(** ** [lib/app.js] *)

(** [keyIds]: the key hierarchy, in the order [for ... in] enumerates it
    (none of the names is an array index, so this is the order they are
    written in). *)
Definition keyIds : list (jsstring * list jsstring) :=
  [ (js "000", [js "stats"]);
    (js "001", [js "stats"; js "watcher"]);
    (js "002", [js "stats"; js "watcher"; js "spender"]);
    (js "003", [js "stats"; js "watcher"; js "spender"; js "admin"]) ].

Definition configArchiveFileName : jsstring := js "config.7z".
Definition keyArchiveFileName : jsstring := js "client.7z".

(** The names of the per-service version pins of [sessionData]. *)
Definition version_pins : list string :=
  [ "gatekeeper_version"; "proxy_version"; "proxycron_version"; "pycoin_version";
    "otsclient_version"; "bitcoin_version"; "lightning_version";
    "sparkwallet_version" ].

(** [prefix()] *)
Definition prefix : jsstring := js "Cyphernode: ".

Definition msg_passwords_do_not_match : jsstring := js "Passwords do not match" ++ [10%N].
Definition msg_corrupt : jsstring := js "config archive is corrupt.".
Definition msg_rerun : jsstring :=
  js "Unable to migrate client.7z non-interactively. Rerun without the -r option".
Definition msg_generating_cert : jsstring :=
  [9749%N] ++ js " Generating gatekeeper cert. This may take a while " ++ [9749%N].
Definition msg_cert_not_created : jsstring := js "error! Gatekeeper cert was not created".
Definition msg_config_not_written : jsstring := js "error! Config archive was not written".
Definition msg_client_not_written : jsstring :=
  js "error! Client gatekeeper key archive was not written".
Definition msg_create (what : jsstring) : jsstring := js "   create " ++ what.
Definition msg_new_option : jsstring :=
  js " (" ++ [9888%N; 65039%N] ++ js " new option " ++ [9888%N; 65039%N] ++ js ")".

(** [s.indexOf(needle) != -1] on strings. *)
Fixpoint string_includes (needle hay : jsstring) : bool :=
  bool_decide (needle `prefix_of` hay)
  || match hay with
     | [] => false
     | _ :: hay' => string_includes needle hay'
     end.

(** A fresh reference for an array or object literal. *)
Definition alloc : M N :=
  fun s => Ret (next_ref s) (set_next_ref (N.succ (next_ref s)) s).

(** One random draw: its index. *)
Definition draw : M nat :=
  fun s => Ret (rng s) (set_rng (S (rng s)) s).

Definition env_get (s : state) (k : string) : value :=
  match env s !! k with
  | Some v => VStr v
  | None => VUndefined
  end.

(** What a path of the disk holds after a write. *)
Definition put_node (p : jsstring) (n : option Node) (d : gmap jsstring Node) : gmap jsstring Node :=
  match n with
  | Some x => <[p := x]> d
  | None => delete p d
  end.

Section App.
Context (X : External).

(** [destinationPath(relPath)] *)
Definition destinationPath (relPath : jsstring) : jsstring :=
  path_join X [js "/data"; relPath].

(** [templatePath(relPath)] *)
Definition templatePath (relPath : jsstring) : jsstring :=
  path_join X [dirname X; js ".."; js "templates"; relPath].

(** [path.join('/data', 'exitStatus.sh')] *)
Definition exitStatusPath : jsstring :=
  path_join X [js "/data"; js "exitStatus.sh"].

(** The constructor: a new [App] has the features of [features.json] and no
    other property yet; a status file left by an earlier run is removed. *)
Definition constructor : M unit :=
  modify (set_this (fun _ =>
    {| features := features_json X; sessionData := ∅;
       config := {| data := ∅; validateErrors := None |}; help := VUndefined |})) ;;
  e <- existsSync exitStatusPath ;;
  if e then unlinkSync exitStatusPath else ret tt.

(** [isChecked(name, value)] *)
Definition isChecked (name : string) (v : value) : M value :=
  s <- get ;;
  let d := getp (data (config (this s))) name in
  if negb (truthy d) then ret d
  else match d with
       | VArr _ items => ret (VBool (existsb (strict_eq v) items))
       | VStr h => ret (VBool (string_includes (to_string v) h))
       | _ => throw "TypeError"
       end.

(** [getDefault(name)] *)
Definition getDefault (a : App) (name : string) : value :=
  if hasOwnProperty (data (config a)) name then getp (data (config a)) name
  else if hasOwnProperty (sessionData a) name then getp (sessionData a) name
  else VUndefined.

(** [for( let c of this.features ) c.checked = this.isChecked('features', c.value)] *)
Fixpoint checkFeatures (seen todo : list Feature) : M unit :=
  match todo with
  | [] => ret tt
  | c :: rest =>
      v <- isChecked "features" (f_value c) ;;
      let c' := {| f_value := f_value c; f_checked := v |} in
      modify (set_this (set_features (seen ++ c' :: rest))) ;;
      checkFeatures (seen ++ [c']) rest
  end.

Definition passwordQuestion (name : string) (message : string) : Question :=
  {| q_type := "password"; q_name := name; q_message := prefix ++ js message;
     q_default := VUndefined; q_filter := Some trimFilter |}.

Definition newPasswordQuestions : list Question :=
  [ passwordQuestion "password0" "Choose your configuration password";
    passwordQuestion "password1" "Confirm your configuration password" ].

(** [!r.password0 || !r.password1 || r.password0 !== r.password1] *)
Definition askAgain (r : gmap string value) : bool :=
  negb (truthy (getp r "password0")) || negb (truthy (getp r "password1"))
  || strict_neq (getp r "password0") (getp r "password1").

(** [r.password0 && r.password1 && r.password0 !== r.password1] *)
Definition mismatch (r : gmap string value) : bool :=
  truthy (getp r "password0") && truthy (getp r "password1")
  && strict_neq (getp r "password0") (getp r "password1").

(** The [while] loop of lines 154-172. Every turn that does not block takes
    two answers from the operator, so [fuel] above the number of answers
    left never runs out. *)
Fixpoint newPasswordLoop (fuel : nat) (r : gmap string value) : M (gmap string value) :=
  match fuel with
  | O => fun s => Blocked s
  | S n =>
      if askAgain r then
        (if mismatch r then console_log msg_passwords_do_not_match else ret tt) ;;
        r' <- prompt newPasswordQuestions ;;
        newPasswordLoop n r'
      else ret r
  end.

(** The [while( !r.password )] loop of lines 181-188. *)
Fixpoint passwordLoop (fuel : nat) (r : gmap string value) : M (gmap string value) :=
  match fuel with
  | O => fun s => Blocked s
  | S n =>
      if negb (truthy (getp r "password")) then
        r' <- prompt [passwordQuestion "password" "Enter your configuration password?"] ;;
        passwordLoop n r'
      else ret r
  end.

Definition setSession (k : string) (v : value) : M unit :=
  modify (set_this (set_sessionData (insert k v))).

Definition setData (k : string) (v : value) : M unit :=
  modify (set_this (set_data (insert k v))).

Definition deleteData (k : string) : M unit :=
  modify (set_this (set_data (delete k))).

(** [await this.config.deserialize(path, password)] *)
Definition deserialize (p : jsstring) (password : value) : M unit :=
  s <- get ;;
  match Config_deserialize X (fs s !! p) password with
  | inl e => throw e
  | inr c => modify (set_this (set_config c))
  end.

(** Lines 176-190 of [setupConfigArchive]: the password of an existing
    archive, from the environment or from the operator. *)
Definition resolvePassword : M unit :=
  s <- get ;;
  if truthy (env_get s "CFG_PASSWORD") then
    setSession "configurationPassword" (env_get s "CFG_PASSWORD")
  else
    r <- passwordLoop (S (length (keyboard s))) ∅ ;;
    setSession "configurationPassword" (getp r "password").

(** Lines 191-207 of [setupConfigArchive]: the inner [try] and [catch]. *)
Definition loadConfigArchive : M unit :=
  try_catch
    (s <- get ;;
     deserialize (destinationPath configArchiveFileName)
       (getp (sessionData (this s)) "configurationPassword") ;;
     s <- get ;;
     if hasOwnProperty (data (config (this s))) "gatekeeper_clientkeyspassword" then
       setSession "gatekeeper_clientkeyspassword_c"
         (getp (data (config (this s))) "gatekeeper_clientkeyspassword")
     else ret tt)
    (fun e => console_log (js e) ;; process_exit None).

(** Lines 152-173 of [setupConfigArchive]: the password of a new archive. *)
Definition choosePassword : M unit :=
  s <- get ;;
  r <- newPasswordLoop (S (length (keyboard s))) ∅ ;;
  setSession "configurationPassword" (getp r "password0").

(** [setupConfigArchive()]. The terminal control sequences it writes to
    [process.stdout] are not recorded. *)
Definition setupConfigArchive : M unit :=
  modify (set_this (set_config (Config_new X))) ;;
  e <- existsSync (destinationPath configArchiveFileName) ;;
  (if negb e then choosePassword
   else
     try_catch
       (resolvePassword ;; loadConfigArchive)
       (fun err => console_log msg_corrupt ;; process_exit (Some 1))) ;;
  s <- get ;;
  setData "adminhash" (htpasswd X (getp (sessionData (this s)) "configurationPassword")) ;;
  s <- get ;;
  checkFeatures [] (features (this s)).

(** [prompt.message = prompt.message + ' (... new option ...)'] for a prompt
    named in [sessionData.markProperties]. *)
Definition markPrompt (marks : value) (q : Question) : Question :=
  match marks with
  | VArr _ items =>
      if negb (length items =? 0)%nat && existsb (strict_eq (VStr (js (q_name q)))) items then
        {| q_type := q_type q; q_name := q_name q;
           q_message := q_message q ++ msg_new_option;
           q_default := q_default q; q_filter := q_filter q |}
      else q
  | _ => q
  end.

(** [startWizard()] *)
Definition startWizard : M unit :=
  s <- get ;;
  r <- prompt [ {| q_type := "confirm"; q_name := "enablehelp";
                   q_message := prefix ++ js "Enable help?";
                   q_default := getDefault (this s) "enablehelp"; q_filter := None |} ] ;;
  setData "enablehelp" (getp r "enablehelp") ;;
  s <- get ;;
  (if truthy (getp (data (config (this s))) "enablehelp")
   then modify (set_this (set_help (help_json X)))
   else ret tt) ;;
  s <- get ;;
  props <- prompt
    (flat_map (fun m => map (markPrompt (getp (sessionData (this s)) "markProperties"))
                            (pr_prompts m (this s)))
              (prompters X)) ;;
  modify (set_this (set_data (fun d => props ∪ d))).

(** [createRandomKey(id, groups)]; [None] is the [undefined] it returns for
    an empty id or group list. *)
Definition createRandomKey (i : jsstring) (g : list jsstring) : M (option ApiKey) :=
  if negb (truthy (VStr i)) || (length g =? 0)%nat then ret None
  else
    n <- draw ;;
    ret (Some {| id := i; groups := g; key := ApiKey_randomiseKey X n |}).

(** The [for( let keyId in keyIds )] loop of lines 270-274, with the two
    arrays it pushes to. *)
Fixpoint createKeys (ids : list (jsstring * list jsstring))
    (configEntries clientInformation : list value) : M (list value * list value) :=
  match ids with
  | [] => ret (configEntries, clientInformation)
  | (keyId, g) :: rest =>
      k <- createRandomKey keyId g ;;
      apikey <- non_null k ;;
      createKeys rest (configEntries ++ [ApiKey_getConfigEntry X apikey])
                      (clientInformation ++ [ApiKey_getClientInformation X apikey])
  end.

(** [this.config.data.gatekeeper_recreatekeys ||
     this.config.data.gatekeeper_keys.configEntries.length===0] *)
Definition shouldRecreateKeys (d : gmap string value) : M bool :=
  if truthy (getp d "gatekeeper_recreatekeys") then ret true
  else
    entries <- non_null (member (getp d "gatekeeper_keys") "configEntries") ;;
    len <- non_null (member entries "length") ;;
    ret (strict_eq len (VNum 0)).

(** Lines 262-281 of [processProps]: the keys. *)
Definition processKeys : M unit :=
  s <- get ;;
  c <- shouldRecreateKeys (data (config (this s))) ;;
  if c then
    deleteData "gatekeeper_recreatekeys" ;;
    r1 <- alloc ;;
    r2 <- alloc ;;
    ks <- createKeys keyIds [] [] ;;
    r3 <- alloc ;;
    setData "gatekeeper_keys"
      (VObj r3 [ ("configEntries", VArr r1 ks.1); ("clientInformation", VArr r2 ks.2) ])
  else ret tt.

(** [this.config.data.gatekeeper_recreatecert ||
     !this.config.data.gatekeeper_sslcert || !this.config.data.gatekeeper_sslkey] *)
Definition shouldRecreateCert (d : gmap string value) : bool :=
  truthy (getp d "gatekeeper_recreatecert")
  || negb (truthy (getp d "gatekeeper_sslcert"))
  || negb (truthy (getp d "gatekeeper_sslkey")).

(** Lines 293-303: the generation attempt, [try] and [catch]. A promise
    that resolves to no result fails at [result.code] like one that
    rejects. *)
Definition createCert : M unit :=
  try_catch
    (s <- get ;;
     match Cert_create X (getp (sessionData (this s)) "cns") with
     | inl e => throw e
     | inr result =>
         if strict_eq (code result) (VNum 0) then
           k <- non_null (cert_key result) ;;
           setData "gatekeeper_sslkey" (VStr k) ;;
           c <- non_null (cert_cert result) ;;
           setData "gatekeeper_sslcert" (VStr c)
         else console_log msg_cert_not_created
     end)
    (fun err => console_log msg_cert_not_created).

(** Lines 287-304 of [processProps]: the certificate. *)
Definition processCert : M unit :=
  s <- get ;;
  if shouldRecreateCert (data (config (this s))) then
    deleteData "gatekeeper_recreatecert" ;;
    console_log msg_generating_cert ;;
    createCert
  else ret tt.

(** [processProps()] *)
Definition processProps : M unit :=
  processKeys ;;
  s <- get ;;
  setSession "cns" (Cert_cns X (getp (data (config (this s))) "gatekeeper_cns")) ;;
  processCert.

Definition pathProps : list string :=
  [ "gatekeeper_datapath"; "traefik_datapath"; "proxy_datapath"; "bitcoin_datapath";
    "lightning_datapath"; "otsclient_datapath" ].

(** The body of the [pathProps] loop of lines 337-341. *)
Definition resolveCustomPath (d : gmap string value) (pathProp : string) : gmap string value :=
  if strict_eq (getp d pathProp) (VStr (js "_custom"))
  then <[pathProp := js_or (getp d (pathProp ++ "_custom")%string) (VStr [])]> d
  else d.

(** One template of one prompter: lines 346-356. *)
Definition writeTemplate (name t : jsstring) : M unit :=
  let p := path_join X [name; t] in
  let destFile := destinationPath p in
  let targetDir := path_dirname X destFile in
  e <- existsSync targetDir ;;
  (if negb e then mkdirSync targetDir else ret tt) ;;
  s <- get ;;
  match ejs_renderFile X (templatePath p)
          (sessionData (this s) ∪ data (config (this s))) with
  | inl err => throw err
  | inr result =>
      console_log (msg_create p) ;;
      writeFileSync destFile result
  end.

Fixpoint forEach {A} (l : list A) (body : A -> M unit) : M unit :=
  match l with
  | [] => ret tt
  | x :: rest => body x ;; forEach rest body
  end.

(** Lines 343-359: every template of every prompter. *)
Definition writeTemplates : M unit :=
  forEach (prompters X) (fun m =>
    s <- get ;;
    forEach (pr_templates m (data (config (this s)))) (writeTemplate (pr_name m))).

(** [await archive.writeEntry(entry, content)] for the archive at [p] with
    [password]. *)
Definition writeEntry (p : jsstring) (password : value) (entry : jsstring) (content : value)
    : M bool :=
  fun s =>
    let r := Archive_writeEntry X (fs s !! p) password entry content in
    Ret (wr_ok r) (set_fs (put_node p (wr_node r)) s).

(** [this.config.serialize(path, password)] *)
Definition serialize (p : jsstring) (password : value) : M bool :=
  fun s =>
    let r := Config_serialize X (data (config (this s))) (fs s !! p) password in
    Ret (wr_ok r) (set_fs (put_node p (wr_node r)) s).

(** Lines 365-368: the client key archive is removed when its password
    changed. *)
Definition removeStaleKeyArchive : M unit :=
  s <- get ;;
  e <- existsSync (destinationPath keyArchiveFileName) ;;
  if strict_neq (getp (sessionData (this s)) "gatekeeper_clientkeyspassword")
                (getp (data (config (this s))) "gatekeeper_clientkeyspassword")
     && e
  then unlinkSync (destinationPath keyArchiveFileName)
  else ret tt.

(** Lines 370-376: the two entries of the client key archive. *)
Definition writeKeyArchive (clientInformation : value) : M unit :=
  s <- get ;;
  let password := getp (data (config (this s))) "gatekeeper_clientkeyspassword" in
  keys <- match clientInformation with
          | VArr _ items => ret (VStr (array_join [10%N] items))
          | _ => throw "TypeError"
          end ;;
  ok <- writeEntry (destinationPath keyArchiveFileName) password (js "keys.txt") keys ;;
  (if negb ok then console_log msg_client_not_written else ret tt) ;;
  s <- get ;;
  ok <- writeEntry (destinationPath keyArchiveFileName) password (js "cacert.pem")
          (getp (data (config (this s))) "gatekeeper_sslcert") ;;
  if negb ok then console_log msg_client_not_written else ret tt.

(** [this.config.data.gatekeeper_keys &&
     this.config.data.gatekeeper_keys.clientInformation]: the value of the
    conjunction. *)
Definition clientInformationOf (d : gmap string value) : value :=
  if truthy (getp d "gatekeeper_keys")
  then default VUndefined (member (getp d "gatekeeper_keys") "clientInformation")
  else getp d "gatekeeper_keys".

(** Lines 361-377 of [writeFiles]: the client key archive. *)
Definition writeClientKeys : M unit :=
  console_log (msg_create keyArchiveFileName) ;;
  s <- get ;;
  let info := clientInformationOf (data (config (this s))) in
  if truthy info then
    removeStaleKeyArchive ;;
    writeKeyArchive info
  else ret tt.

(** Lines 320-326 of [writeFiles]: the configuration archive. *)
Definition writeConfigArchive : M unit :=
  console_log (msg_create configArchiveFileName) ;;
  s <- get ;;
  ok <- serialize (destinationPath configArchiveFileName)
          (getp (sessionData (this s)) "configurationPassword") ;;
  if negb ok then console_log msg_config_not_written else ret tt.

(** Lines 320-359 of [writeFiles]: all that precedes the client key
    archive. *)
Definition writeConfigAndTemplates : M unit :=
  writeConfigArchive ;;
  modify (set_this (set_data (fun d => fold_left resolveCustomPath pathProps d))) ;;
  writeTemplates.

(** [writeFiles()] *)
Definition writeFiles : M unit :=
  writeConfigAndTemplates ;;
  writeClientKeys ;;
  writeFileSync exitStatusPath (js "EXIT_STATUS=0").

(** [process.env.NAME || fallback] *)
Definition env_or (s : state) (name : string) (fallback : value) : value :=
  js_or (env_get s name) fallback.

(** Lines 76-111 of [start]: the session data, from the options and the
    environment. [path.join] throws on a [HOME] that is not set. *)
Definition initSession (options : option (gmap string value)) : M unit :=
  let options := default ∅ options in
  s <- get ;;
  setupDir <-
    (if truthy (env_get s "SETUP_DIR") then ret (env_get s "SETUP_DIR")
     else match env_get s "HOME" with
          | VStr home => ret (VStr (path_join X [home; js "cyphernode"]))
          | _ => throw "TypeError"
          end) ;;
  n <- draw ;;
  c <- draw ;;
  modify (set_this (set_sessionData (fun _ => list_to_map
    [ ("defaultDataDirBase", js_or (env_get s "DEFAULT_DATADIR_BASE") (env_get s "HOME"));
      ("setupDir", setupDir);
      ("default_username", env_or s "DEFAULT_USER" (VStr []));
      ("gatekeeper_version", env_or s "GATEKEEPER_VERSION" (VStr (js "latest")));
      ("proxy_version", env_or s "PROXY_VERSION" (VStr (js "latest")));
      ("proxycron_version", env_or s "PROXYCRON_VERSION" (VStr (js "latest")));
      ("pycoin_version", env_or s "PYCOIN_VERSION" (VStr (js "latest")));
      ("otsclient_version", env_or s "OTSCLIENT_VERSION" (VStr (js "latest")));
      ("bitcoin_version", env_or s "BITCOIN_VERSION" (VStr (js "latest")));
      ("lightning_version", env_or s "LIGHTNING_VERSION" (VStr (js "latest")));
      ("sparkwallet_version", env_or s "SPARKWALLET_VERSION" (VStr (js "standalone")));
      ("noWizard", VBool (truthy (getp options "noWizard")));
      ("noSplashScreen", VBool (truthy (getp options "noSplashScreen")));
      ("lightning_nodename", VStr (name_generate X n));
      ("lightning_color", VStr (random_color X c));
      ("installer_cleanup", VBool false);
      ("devmode", env_or s "DEVMODE" (VBool false)) ]))) ;;
  if strict_eq (env_get s "VERSION_OVERRIDE") (VStr (js "true")) then
    forEach [ "lightning_version"; "bitcoin_version"; "otsclient_version"; "pycoin_version";
              "proxycron_version"; "proxy_version"; "gatekeeper_version" ]
            (fun pin => setSession pin (VStr (js "latest"))) ;;
    setSession "sparkwallet_version" (VStr (js "standalone"))
  else ret tt.

(** Lines 119-127 of [start]: the names of the missing required
    properties. *)
Definition missingProperties (c : Config) : list value :=
  match validateErrors c with
  | Some errors =>
      omap (fun error =>
              if strict_eq (keyword error) (VStr (js "required")) then
                match params error with
                | Some ps =>
                    if truthy (getp ps "missingProperty")
                    then Some (getp ps "missingProperty") else None
                | None => None
                end
              else None) errors
  | None => []
  end.

(** Lines 134-141 of [start], the body of [if( !this.sessionData.noWizard )]:
    the client keys password is saved, then the wizard runs. [missing] is
    [missingProperties], the array at reference [r]. *)
Definition interview (r : N) (missing : list value) : M unit :=
  s <- get ;;
  setSession "gatekeeper_clientkeyspassword"
    (getp (data (config (this s))) "gatekeeper_clientkeyspassword") ;;
  (if negb (length missing =? 0)%nat
   then setSession "markProperties" (VArr r missing) else ret tt) ;;
  startWizard.

(** Lines 115-144 of [start]: all that follows [setupConfigArchive]. *)
Definition startAfterSetup : M unit :=
  s <- get ;;
  (if negb (truthy (getp (sessionData (this s)) "noSplashScreen"))
   then forEach (splash_show X) console_log else ret tt) ;;
  r <- alloc ;;
  s <- get ;;
  let missing := missingProperties (config (this s)) in
  let noWizard := truthy (getp (sessionData (this s)) "noWizard") in
  (if noWizard && negb (length missing =? 0)%nat
   then console_log msg_rerun ;; process_exit (Some 1)
   else ret tt) ;;
  (if negb noWizard then interview r missing else ret tt) ;;
  processProps ;;
  writeFiles.

(** [start(options)] *)
Definition start (options : option (gmap string value)) : M unit :=
  initSession options ;;
  setupConfigArchive ;;
  startAfterSetup.

End App.

(** ** A concrete installation

    One instance of the external modules, to run the methods on: paths are
    joined with [/], and the directory of a path is its [parent]; the configuration archive decrypts when its content is
    its password; the archive writers append to what the path holds, or fail
    and leave it as it is when [disk_ok] is [false]; certificate generation
    gives [cert]. *)

Definition demo_path_join (parts : list jsstring) : jsstring := join_strings (js "/") parts.

Definition demo_keys : value :=
  VObj 10 [ ("configEntries", VArr 11 [VStr (js "old-entry")]);
            ("clientInformation", VArr 12 [VStr (js "old-info")]) ].

Definition demo_config : Config :=
  {| data := {[ "gatekeeper_keys" := demo_keys;
                "gatekeeper_clientkeyspassword" := VStr (js "clientpw");
                "gatekeeper_sslkey" := VStr (js "old-key");
                "gatekeeper_sslcert" := VStr (js "old-cert") ]};
     validateErrors :=
       Some [ {| keyword := VStr (js "required");
                 params := Some {[ "missingProperty" := VStr (js "bitcoin_mode") ]} |} ] |}.

Definition demo_new_config : Config :=
  {| data := {[ "gatekeeper_keys" :=
                  VObj 0 [ ("configEntries", VArr 1 []); ("clientInformation", VArr 2 []) ] ]};
     validateErrors := None |}.

Definition demo_write (disk_ok : bool) (node : option Node) (content : jsstring) : WriteResult :=
  if disk_ok then
    {| wr_ok := true;
       wr_node := Some (File (match node with
                              | Some (File old) => old ++ content
                              | _ => content
                              end)) |}
  else {| wr_ok := false; wr_node := node |}.

Definition demo_prompter : Prompter :=
  {| pr_name := js "gatekeeper";
     pr_prompts := fun _ =>
       [ {| q_type := "password"; q_name := "gatekeeper_clientkeyspassword";
            q_message := js "Client keys password?"; q_default := VUndefined;
            q_filter := Some trimFilter |} ];
     pr_templates := fun _ => [js "keys.properties"] |}.

Definition demo (disk_ok : bool) (cert : string + CertResult) : External :=
  {| path_join := demo_path_join;
     path_dirname := parent;
     dirname := js "/app/lib";
     features_json := [ {| f_value := VStr (js "tor"); f_checked := VUndefined |} ];
     help_json := VObj 20 [];
     prompters := [demo_prompter];
     name_generate := fun n => js "node" ++ js (pretty (Z.of_nat n));
     random_color := fun n => js "7f3fbf";
     splash_show := [js "cyphernode"];
     Config_new := demo_new_config;
     Config_deserialize := fun node password =>
       match node with
       | Some (File content) =>
           if jsstring_eqb content (to_string password) then inr demo_config
           else inl "Error: wrong password or corrupt archive"
       | _ => inl "Error: wrong password or corrupt archive"
       end;
     Config_serialize := fun d node password => demo_write disk_ok None (to_string password);
     htpasswd := fun password => VStr (js "hash:" ++ to_string password);
     ApiKey_randomiseKey := fun n => js "secret" ++ js (pretty (Z.of_nat n));
     ApiKey_getConfigEntry := fun k => VStr (id k ++ js "=" ++ key k);
     ApiKey_getClientInformation := fun k =>
       VStr (id k ++ js "=" ++ key k ++ js " " ++ join_strings (js ",") (groups k));
     Cert_cns := fun v => v;
     Cert_create := fun cns => cert;
     Archive_writeEntry := fun node password entry content =>
       demo_write disk_ok node (js "[" ++ entry ++ js "]" ++ to_string content);
     ejs_renderFile := fun p context => inr p |}.

(** The installation [demo disk_ok cert] once the document of the archive
    has every required property: the schema check reports nothing. *)
Definition demo_migrated (disk_ok : bool) (cert : string + CertResult) : External :=
  let X := demo disk_ok cert in
  {| path_join := path_join X; path_dirname := path_dirname X; dirname := dirname X;
     features_json := features_json X; help_json := help_json X; prompters := prompters X;
     name_generate := name_generate X; random_color := random_color X;
     splash_show := splash_show X; Config_new := Config_new X;
     Config_deserialize := fun node password =>
       match Config_deserialize X node password with
       | inr c => inr {| data := data c; validateErrors := None |}
       | inl e => inl e
       end;
     Config_serialize := Config_serialize X;
     htpasswd := htpasswd X; ApiKey_randomiseKey := ApiKey_randomiseKey X;
     ApiKey_getConfigEntry := ApiKey_getConfigEntry X;
     ApiKey_getClientInformation := ApiKey_getClientInformation X;
     Cert_cns := Cert_cns X; Cert_create := Cert_create X;
     Archive_writeEntry := Archive_writeEntry X; ejs_renderFile := ejs_renderFile X |}.

Definition demo_cert_ok : string + CertResult :=
  inr {| code := VNum 0; cert_key := Some (js "new-key"); cert_cert := Some (js "new-cert") |}.

Definition demo_cert_failed : string + CertResult :=
  inr {| code := VNum 1; cert_key := None; cert_cert := None |}.

(** A state before the constructor runs. *)
Definition demo_state (e : gmap string jsstring) (disk : gmap jsstring Node)
    (answers : list value) : state :=
  {| this := {| features := []; sessionData := ∅;
                config := {| data := ∅; validateErrors := None |}; help := VUndefined |};
     env := e; fs := disk; console := []; keyboard := answers; rng := 0; next_ref := 100 |}.

(** [$HOME] only. *)
Definition demo_env : gmap string jsstring := {[ "HOME" := js "/root" ]}.

(** A disk whose [/data] holds a configuration archive whose password is
    [secret], and a client key archive. *)
Definition demo_disk : gmap jsstring Node :=
  {[ js "/" := Dir;
     js "/data" := Dir;
     js "/data/config.7z" := File (js "secret");
     js "/data/client.7z" := File (js "[keys.txt]old-info") ]}.

(** A state whose document is that of the concrete installation, with the
    properties [extra] on top. *)
Definition demo_loaded (extra : gmap string value) (answers : list value) : state :=
  set_this (set_config {| data := extra ∪ data demo_config;
                          validateErrors := validateErrors demo_config |})
           (demo_state demo_env demo_disk answers).

(** The options of an unattended run. *)
Definition demo_unattended : gmap string value := {[ "noWizard" := VBool true ]}.

(** * Vocabulary of the statements *)

(** [keeps f m]: however [m] ends, the observation [f] of the state is
    what it was. *)
Definition keeps {B A} (f : state -> B) (m : M A) : Prop :=
  forall s, f (final (m s)) = f s.

(** What an observation may depend on: [blind_to_X f] says that [f] does
    not read [X]. *)
Definition blind_to_keyboard {B} (f : state -> B) : Prop :=
  forall k s, f (set_keyboard k s) = f s.
Definition blind_to_console {B} (f : state -> B) : Prop :=
  forall g s, f (set_console g s) = f s.
Definition blind_to_refs {B} (f : state -> B) : Prop :=
  forall r s, f (set_next_ref r s) = f s.
Definition blind_to_rng {B} (f : state -> B) : Prop :=
  forall n s, f (set_rng n s) = f s.
Definition blind_to_features {B} (f : state -> B) : Prop :=
  forall g s, f (set_this (set_features g) s) = f s.
Definition blind_to_fs {B} (f : state -> B) : Prop :=
  forall g s, f (set_fs g s) = f s.

(** The property [k] of the document, [this.config.data], and of the
    session data, [this.sessionData]: [None] when the object has no such
    property. *)
Definition data_at (k : string) (s : state) : option value :=
  data (config (this s)) !! k.

Definition session_at (k : string) (s : state) : option value :=
  sessionData (this s) !! k.

(** The record [createRandomKey] builds for the [i]-th identifier of the
    hierarchy when [n] random draws were made before the batch. *)
Definition keyRecord (X : External) (n i : nat) (k : jsstring * list jsstring) : ApiKey :=
  {| id := k.1; groups := k.2; key := ApiKey_randomiseKey X (i + n)%nat |}.

(** The records of one batch, in the order of the hierarchy. *)
Definition keyBatch (X : External) (n : nat) : list ApiKey :=
  imap (keyRecord X n) keyIds.

(** [d.gatekeeper_keys.configEntries.length], the size of the key-entries
    collection of the document [d]; [None] where reading it is a TypeError:
    the document has no key records, or they have no entries. *)
Definition keyEntriesLength (d : gmap string value) : option value :=
  match member (getp d "gatekeeper_keys") "configEntries" with
  | Some entries => member entries "length"
  | None => None
  end.

(** The recreate-keys flag of the document is set, or its key-entries
    collection is empty. *)
Definition flagOrEmpty (d : gmap string value) : Prop :=
  truthy (getp d "gatekeeper_recreatekeys") = true \/ keyEntriesLength d = Some (VNum 0).

(** In [s'] the keys of [s] are regenerated: the document holds, in new
    arrays, the records of a batch drawn after the draws of [s]; it has no
    recreate-keys flag; four more draws are counted. *)
Definition keysRegenerated (X : External) (s s' : state) : Prop :=
  (exists r1 r2 r3,
     data_at "gatekeeper_keys" s' =
       Some (VObj r3
               [ ("configEntries",
                  VArr r1 (map (ApiKey_getConfigEntry X) (keyBatch X (rng s))));
                 ("clientInformation",
                  VArr r2 (map (ApiKey_getClientInformation X) (keyBatch X (rng s)))) ]))
  /\ data_at "gatekeeper_recreatekeys" s' = None
  /\ rng s' = (4 + rng s)%nat.

(** The state in which the generation attempt starts, from the state [s0]
    the keys step ended in. *)
Definition certAttemptState (X : External) (s0 : state) : state :=
  set_console (fun c => c ++ [msg_generating_cert])
    (set_this (set_data (delete "gatekeeper_recreatecert"))
       (set_this (set_sessionData
                    (insert "cns" (Cert_cns X (getp (data (config (this s0))) "gatekeeper_cns"))))
                 s0)).

(** [cert.create] threw, or resolved to a completion code other than 0. *)
Definition certFailed (r : string + CertResult) : Prop :=
  match r with
  | inl _ => True
  | inr result => strict_eq (code result) (VNum 0) = false
  end.

(** The state in which an unattended run with nothing missing reaches
    [processProps], from the state [s] that [setupConfigArchive] ended in:
    the splash screen is printed unless it is turned off, and the array of
    the missing properties has taken a reference. *)
Definition splashed (X : External) (s : state) : state :=
  set_next_ref (N.succ (next_ref s))
    (set_console (fun c => c ++ (if truthy (getp (sessionData (this s)) "noSplashScreen")
                                 then [] else splash_show X)) s).

(** What the operator's answers [x] and [y] to the two password questions
    become: the answers of [inquirer.prompt], trimmed by the filter. *)
Definition typed (x y : value) : gmap string value :=
  <["password0" := trimFilter x]> (<["password1" := trimFilter y]> ∅).

(** Both entries are non-empty and equal once trimmed. *)
Definition acceptable (x y : value) : Prop :=
  trim (to_string x) <> [] /\ trim (to_string y) <> []
  /\ trim (to_string x) = trim (to_string y).

(** The lines the loop prints: one for the answers [r] it starts from and
    one for each rejected pair, when both entries were given and differ. *)
Definition complaint (r : gmap string value) : list jsstring :=
  if mismatch r then [msg_passwords_do_not_match] else [].

Definition complaints (r : gmap string value) (rejected : list (value * value)) : list jsstring :=
  complaint r ++ flat_map (fun xy => complaint (typed xy.1 xy.2)) rejected.

(** The answers the operator gives when typing the [pairs] one after the
    other. *)
Definition typed_in (pairs : list (value * value)) : list value :=
  flat_map (fun xy => [xy.1; xy.2]) pairs.

(** The document property [name] can be searched with [indexOf], or is
    falsy. *)
Definition indexable (v : value) : Prop :=
  truthy v = false \/ (exists r items, v = VArr r items) \/ (exists h, v = VStr h).

(** What [setupConfigArchive] leaves alone once the password is chosen. *)
Definition outside_features (s : state) :=
  (sessionData (this s), config (this s), fs s, console s, keyboard s).

(** The pins that follow the images' [latest] tag. *)
Definition floating_pins : list string :=
  [ "gatekeeper_version"; "proxy_version"; "proxycron_version"; "pycoin_version";
    "otsclient_version"; "bitcoin_version"; "lightning_version" ].

(** * Properties *)

(** ** Reasoning about computations *)

Lemma bind_Ret {A B} (m : M A) (k : A -> M B) s a s' :
  m s = Ret a s' -> bind m k s = k a s'.
Proof. unfold bind. intros ->. reflexivity. Qed.

Lemma Ret_inj {A} (a a' : A) s s' : Ret a s = Ret a' s' -> s = s'.
Proof. congruence. Qed.

Lemma keeps_Ret {B A} (f : state -> B) (m : M A) s a s' :
  keeps f m -> m s = Ret a s' -> f s' = f s.
Proof. intros H E. specialize (H s). rewrite E in H. exact H. Qed.

Lemma keeps_ret {B A} (f : state -> B) (a : A) : keeps f (ret a).
Proof. intros s. reflexivity. Qed.

Lemma keeps_get {B} (f : state -> B) : keeps f get.
Proof. intros s. reflexivity. Qed.

Lemma keeps_throw {B A} (f : state -> B) e : keeps f (@throw A e).
Proof. intros s. reflexivity. Qed.

Lemma keeps_exit {B A} (f : state -> B) c : keeps f (@process_exit A c).
Proof. intros s. reflexivity. Qed.

Lemma keeps_non_null {B A} (f : state -> B) (o : option A) : keeps f (non_null o).
Proof. intros s. destruct o; reflexivity. Qed.

Lemma keeps_modify {B} (f : state -> B) g :
  (forall s, f (g s) = f s) -> keeps f (modify g).
Proof. intros H s. apply H. Qed.

Lemma keeps_bind {B A C} (f : state -> B) (m : M A) (k : A -> M C) :
  keeps f m -> (forall a, keeps f (k a)) -> keeps f (bind m k).
Proof.
  intros Hm Hk s. unfold bind. specialize (Hm s).
  destruct (m s) as [a s'| | |]; simpl in *; try assumption.
  rewrite Hk. assumption.
Qed.

Lemma keeps_try_catch {B A} (f : state -> B) (m : M A) h :
  keeps f m -> (forall e, keeps f (h e)) -> keeps f (try_catch m h).
Proof.
  intros Hm Hh s. unfold try_catch. specialize (Hm s).
  destruct (m s) as [| e s' | |]; simpl in *; try assumption.
  rewrite Hh. assumption.
Qed.

Lemma keeps_forEach {B A} (f : state -> B) (l : list A) body :
  (forall x, keeps f (body x)) -> keeps f (forEach l body).
Proof.
  intros H. induction l as [|x l IH]; simpl.
  - apply keeps_ret.
  - apply keeps_bind; [apply H | intros _; apply IH].
Qed.

Lemma keeps_existsSync {B} (f : state -> B) p : keeps f (existsSync p).
Proof. intros s. reflexivity. Qed.

Lemma keeps_ask {B} (f : state -> B) q : blind_to_keyboard f -> keeps f (ask q).
Proof. intros H s. unfold ask. destruct (keyboard s); simpl; [reflexivity | apply H]. Qed.

Lemma keeps_prompt {B} (f : state -> B) qs : blind_to_keyboard f -> keeps f (prompt qs).
Proof.
  intros H. unfold prompt. induction qs as [|q qs IH]; simpl.
  - apply keeps_ret.
  - apply keeps_bind; [apply keeps_ask, H | intros a].
    apply keeps_bind; [apply IH | intros r; apply keeps_ret].
Qed.

Lemma keeps_console_log {B} (f : state -> B) line :
  blind_to_console f -> keeps f (console_log line).
Proof. intros H s. apply H. Qed.

Lemma keeps_alloc {B} (f : state -> B) : blind_to_refs f -> keeps f alloc.
Proof. intros H s. apply H. Qed.

Lemma keeps_draw {B} (f : state -> B) : blind_to_rng f -> keeps f draw.
Proof. intros H s. apply H. Qed.

(** One step of a proof that a method keeps an observation: split a
    sequence, or case on what a branch tests. *)
Ltac keeps_step :=
  lazymatch goal with
  | |- keeps _ (bind _ _) => apply keeps_bind; [| intros ?]
  | |- keeps _ (try_catch _ _) => apply keeps_try_catch; [| intros ?]
  | |- keeps _ (ret _) => apply keeps_ret
  | |- keeps _ get => apply keeps_get
  | |- keeps _ (throw _) => apply keeps_throw
  | |- keeps _ (process_exit _) => apply keeps_exit
  | |- keeps _ (non_null _) => apply keeps_non_null
  | |- keeps _ (existsSync _) => apply keeps_existsSync
  | |- keeps _ (forEach _ _) => apply keeps_forEach; intros ?
  | |- keeps _ (prompt _) => apply keeps_prompt; intros ? ?; reflexivity
  | |- keeps _ (console_log _) => apply keeps_console_log; intros ? ?; reflexivity
  | |- keeps _ alloc => apply keeps_alloc; intros ? ?; reflexivity
  | |- keeps _ draw => apply keeps_draw; intros ? ?; reflexivity
  | |- keeps _ (if ?c then _ else _) => destruct c
  | |- keeps _ (match ?x with _ => _ end) => destruct x
  end.

Ltac keeps_auto := repeat keeps_step.

Lemma keeps_isChecked {B} (f : state -> B) name v : keeps f (isChecked name v).
Proof. unfold isChecked. keeps_auto. Qed.

Lemma keeps_checkFeatures {B} (f : state -> B) todo :
  blind_to_features f -> forall seen, keeps f (checkFeatures seen todo).
Proof.
  intros H. induction todo as [|c rest IH]; intros seen; cbn [checkFeatures].
  - apply keeps_ret.
  - apply keeps_bind; [apply keeps_isChecked | intros v].
    apply keeps_bind; [apply keeps_modify; intros s; apply H | intros _; apply IH].
Qed.

Lemma keeps_newPasswordLoop {B} (f : state -> B) fuel :
  blind_to_keyboard f -> blind_to_console f ->
  forall r, keeps f (newPasswordLoop fuel r).
Proof.
  intros Hk Hc. induction fuel as [|n IH]; intros r; cbn [newPasswordLoop].
  - intros s. reflexivity.
  - destruct (askAgain r); [| apply keeps_ret].
    apply keeps_bind.
    + destruct (mismatch r); [apply keeps_console_log, Hc | apply keeps_ret].
    + intros _. apply keeps_bind; [apply keeps_prompt, Hk | intros r'; apply IH].
Qed.

Lemma keeps_passwordLoop {B} (f : state -> B) fuel :
  blind_to_keyboard f ->
  forall r, keeps f (passwordLoop fuel r).
Proof.
  intros Hk. induction fuel as [|n IH]; intros r; cbn [passwordLoop].
  - intros s. reflexivity.
  - destruct (negb (truthy (getp r "password"))); [| apply keeps_ret].
    apply keeps_bind; [apply keeps_prompt, Hk | intros r'; apply IH].
Qed.

Lemma keeps_createKeys {B} X (f : state -> B) ids :
  blind_to_rng f -> forall a b, keeps f (createKeys X ids a b).
Proof.
  intros H. induction ids as [|[i g] rest IH]; intros a b; cbn [createKeys].
  - apply keeps_ret.
  - apply keeps_bind.
    + unfold createRandomKey.
      destruct (negb (truthy (VStr i)) || (length g =? 0)%nat); [apply keeps_ret |].
      apply keeps_bind; [apply keeps_draw, H | intros n; apply keeps_ret].
    + intros k. apply keeps_bind; [apply keeps_non_null | intros apikey; apply IH].
Qed.

(** [createCert] always returns: what [cert.create] throws is caught. *)
Lemma createCert_returns X s : exists s', createCert X s = Ret tt s'.
Proof.
  unfold createCert, try_catch, bind, get, setData, modify, console_log, non_null, throw, ret.
  destruct (Cert_create X _) as [e | result]; [eauto |].
  destruct (strict_eq (code result) (VNum 0)); [| eauto].
  destruct (cert_key result); [| eauto].
  destruct (cert_cert result); eauto.
Qed.

Lemma data_at_setData k k' v s :
  k <> k' -> data_at k (set_this (set_data (insert k' v)) s) = data_at k s.
Proof. intros H. unfold data_at. simpl. apply lookup_insert_ne. congruence. Qed.

Lemma data_at_deleteData k k' s :
  k <> k' -> data_at k (set_this (set_data (delete k')) s) = data_at k s.
Proof. intros H. unfold data_at. simpl. apply lookup_delete_ne. congruence. Qed.

Lemma getp_data_at k s s' :
  data_at k s' = data_at k s ->
  getp (data (config (this s'))) k = getp (data (config (this s))) k.
Proof. unfold data_at, getp. intros ->. reflexivity. Qed.

Lemma processKeys_keeps_data X k :
  k <> "gatekeeper_recreatekeys" -> k <> "gatekeeper_keys" ->
  keeps (data_at k) (processKeys X).
Proof.
  intros H1 H2. unfold processKeys, shouldRecreateKeys, setData, deleteData.
  keeps_auto;
    try (apply keeps_createKeys; intros ? ?; reflexivity);
    apply keeps_modify; intros s; first [ by apply data_at_setData | by apply data_at_deleteData ].
Qed.

Lemma createCert_keeps_data X k :
  k <> "gatekeeper_sslkey" -> k <> "gatekeeper_sslcert" ->
  keeps (data_at k) (createCert X).
Proof.
  intros H1 H2. unfold createCert, setData.
  keeps_auto; apply keeps_modify; intros s; by apply data_at_setData.
Qed.

Lemma processCert_keeps_data X k :
  k <> "gatekeeper_sslkey" -> k <> "gatekeeper_sslcert" -> k <> "gatekeeper_recreatecert" ->
  keeps (data_at k) (processCert X).
Proof.
  intros H1 H2 H3. unfold processCert, deleteData.
  keeps_auto; try (by apply createCert_keeps_data).
  apply keeps_modify; intros s; by apply data_at_deleteData.
Qed.

(** ** The key hierarchy *)

Lemma createKeys_keyIds X s :
  createKeys X keyIds [] [] s =
  Ret (map (ApiKey_getConfigEntry X) (keyBatch X (rng s)),
       map (ApiKey_getClientInformation X) (keyBatch X (rng s)))
      (set_rng (4 + rng s)%nat s).
Proof. destruct s. reflexivity. Qed.

Lemma keyIds_identifiers : map fst keyIds = [js "000"; js "001"; js "002"; js "003"].
Proof. reflexivity. Qed.

(** Each tier's groups strictly contain the groups of the tier below. *)
Lemma keyIds_cumulative i a b :
  keyIds !! i = Some a -> keyIds !! S i = Some b -> a.2 ⊂ b.2.
Proof.
  intros Ha Hb.
  destruct i as [|[|[|[|i]]]]; simpl in Ha, Hb; try discriminate;
    injection Ha as <-; injection Hb as <-;
    apply (bool_decide_unpack _); vm_compute; exact I.
Qed.

(** Run the first step of a sequence when it is a primitive step. *)
Ltac run_step := erewrite bind_Ret; [| reflexivity].

(** C1. Every generated key batch covers exactly the four identifiers of the
    hierarchy, ["000"] to ["003"]; the groups of each identifier strictly
    contain the groups of the identifier before it; and the secret of the
    [i]-th record is a draw of its own, made for this batch: the draw
    number [i + n] when [n] draws were made before, after which four more
    draws are counted as made. *)
Theorem key_batch_covers_hierarchy X s :
  shouldRecreateKeys (data (config (this s))) s = Ret true s ->
  exists s' r1 r2 r3,
    let batch := keyBatch X (rng s) in
    processKeys X s = Ret tt s'
    /\ data_at "gatekeeper_keys" s' =
         Some (VObj r3 [ ("configEntries", VArr r1 (map (ApiKey_getConfigEntry X) batch));
                         ("clientInformation",
                          VArr r2 (map (ApiKey_getClientInformation X) batch)) ])
    /\ map id batch = [js "000"; js "001"; js "002"; js "003"]
    /\ (forall i a b, batch !! i = Some a -> batch !! S i = Some b -> groups a ⊂ groups b)
    /\ (forall i k, batch !! i = Some k -> key k = ApiKey_randomiseKey X (i + rng s)%nat)
    /\ rng s' = (4 + rng s)%nat.
Proof.
  intros H. unfold processKeys.
  rewrite (bind_Ret get _ s s s eq_refl).
  rewrite (bind_Ret _ _ _ _ _ H).
  do 3 run_step.
  erewrite bind_Ret; [| apply createKeys_keyIds].
  do 1 run_step.
  eexists _, _, _, _. cbv zeta.
  split; [reflexivity |].
  split; [unfold data_at; cbn [this config data set_this set_data set_config];
          apply lookup_insert_eq |].
  split; [reflexivity |].
  split; [| split].
  - intros i a b Ha Hb. unfold keyBatch in Ha, Hb.
    apply list_lookup_imap_Some in Ha as (ka & Hka & ->).
    apply list_lookup_imap_Some in Hb as (kb & Hkb & ->).
    exact (keyIds_cumulative i ka kb Hka Hkb).
  - intros i k Hk. unfold keyBatch in Hk.
    apply list_lookup_imap_Some in Hk as (k0 & _ & ->). reflexivity.
  - reflexivity.
Qed.

Lemma key_batch_covers_hierarchy_witness :
  let X := demo true demo_cert_ok in
  let s := set_this (set_data (insert "gatekeeper_recreatekeys" (VBool true)))
                    (demo_state demo_env ∅ []) in
  shouldRecreateKeys (data (config (this s))) s = Ret true s
  /\ exists s', processKeys X s = Ret tt s' /\ rng s' = 4%nat.
Proof.
  intros X s.
  assert (shouldRecreateKeys (data (config (this s))) s = Ret true s) as H
    by (vm_compute; reflexivity).
  split; [exact H |].
  destruct (key_batch_covers_hierarchy X s H)
    as (s' & r1 & r2 & r3 & H1 & _ & _ & _ & _ & H6).
  exists s'. split; assumption.
Defined.

(** ** Regeneration gating *)

Lemma strict_eq_zero v : strict_eq v (VNum 0) = true <-> v = VNum 0.
Proof.
  destruct v; simpl; try (split; discriminate).
  split; [intros H; apply Z.eqb_eq in H; by subst | intros [= ->]; reflexivity].
Qed.

(** The test of lines 262-263, on the document alone. *)
Lemma shouldRecreateKeys_eq d s :
  shouldRecreateKeys d s =
  if truthy (getp d "gatekeeper_recreatekeys") then Ret true s
  else match keyEntriesLength d with
       | Some len => Ret (strict_eq len (VNum 0)) s
       | None => Throw "TypeError" s
       end.
Proof.
  unfold shouldRecreateKeys, keyEntriesLength.
  destruct (truthy _); [reflexivity |]. unfold bind, non_null.
  destruct (member _ "configEntries") as [entries |]; [| reflexivity]. simpl.
  destruct (member entries "length"); reflexivity.
Qed.

Lemma shouldRecreateKeys_true d s : shouldRecreateKeys d s = Ret true s <-> flagOrEmpty d.
Proof.
  rewrite shouldRecreateKeys_eq. unfold flagOrEmpty.
  destruct (truthy _); [by split; auto |].
  destruct (keyEntriesLength d) as [len |].
  - split.
    + intros H. right. f_equal. apply strict_eq_zero. congruence.
    + intros [H | H]; [discriminate |]. injection H as ->. reflexivity.
  - split; [discriminate | intros [H | H]; discriminate].
Qed.

Lemma processKeys_regenerates X s :
  shouldRecreateKeys (data (config (this s))) s = Ret true s ->
  exists s', processKeys X s = Ret tt s' /\ keysRegenerated X s s'.
Proof.
  intros H. unfold processKeys.
  rewrite (bind_Ret get _ s s s eq_refl).
  rewrite (bind_Ret _ _ _ _ _ H).
  do 3 run_step.
  erewrite bind_Ret; [| apply createKeys_keyIds].
  do 1 run_step.
  eexists. split; [reflexivity |].
  unfold keysRegenerated, data_at.
  cbn [this config data set_this set_data set_config set_next_ref set_rng rng].
  split; [eexists _, _, _; apply lookup_insert_eq |].
  split; [| reflexivity].
  rewrite lookup_insert_ne by discriminate. apply lookup_delete_eq.
Qed.

Lemma processKeys_passes X s :
  shouldRecreateKeys (data (config (this s))) s = Ret false s ->
  processKeys X s = Ret tt s.
Proof.
  intros H. unfold processKeys. rewrite (bind_Ret get _ s s s eq_refl).
  rewrite (bind_Ret _ _ _ _ _ H). reflexivity.
Qed.

Lemma processKeys_throws X s e :
  shouldRecreateKeys (data (config (this s))) s = Throw e s ->
  processKeys X s = Throw e s.
Proof.
  intros H. unfold processKeys. rewrite (bind_Ret get _ s s s eq_refl).
  unfold bind. rewrite H. reflexivity.
Qed.

(** Once the keys step has returned, [processProps] returns, with the key
    records, the recreate-keys flag and the draws the keys step left. *)
Lemma processProps_after_keys X s s0 :
  processKeys X s = Ret tt s0 ->
  exists s',
    processProps X s = Ret tt s'
    /\ data_at "gatekeeper_keys" s' = data_at "gatekeeper_keys" s0
    /\ data_at "gatekeeper_recreatekeys" s' = data_at "gatekeeper_recreatekeys" s0
    /\ rng s' = rng s0.
Proof.
  intros Hk. unfold processProps. rewrite (bind_Ret _ _ _ _ _ Hk).
  match goal with |- exists s', ?m s0 = _ /\ _ =>
    assert (keeps (fun s => (data_at "gatekeeper_keys" s,
                             data_at "gatekeeper_recreatekeys" s, rng s)) m) as Hkeeps;
    [| assert (exists s', m s0 = Ret tt s') as [s' E] ]
  end.
  - unfold processCert, createCert, setSession, setData, deleteData.
    keeps_auto; apply keeps_modify; intros s1; unfold data_at;
      cbn [this config data sessionData set_this set_data set_config set_sessionData rng];
      rewrite ?lookup_insert_ne, ?lookup_delete_ne by discriminate; reflexivity.
  - do 2 run_step. unfold processCert. run_step.
    destruct (shouldRecreateCert _); [| by eexists].
    do 2 run_step. apply createCert_returns.
  - exists s'. split; [exact E |].
    pose proof (keeps_Ret _ _ _ _ _ Hkeeps E) as H. cbv beta in H.
    injection H as H1 H2 H3. by rewrite H1, H2, H3.
Qed.

(** C4. Key regeneration is triggered exactly when the recreate-keys flag of
    the document is set or its key-entries collection is empty: this is
    when the test of [processProps] answers [true], and this is when the
    keys step regenerates the keys (a new batch is stored in the document,
    the flag is removed, four secrets are drawn); [processProps] then
    returns with the new batch still in place. When the flag is unset and
    the collection is not empty, the keys step changes nothing at all, and
    [processProps] returns with the key records it found and no draw made.
    When the flag is unset and the document has no key-entries collection,
    [processProps] throws on reading its size and nothing is changed. *)
Theorem keys_regenerated_iff_flag_or_empty X s :
  let d := data (config (this s)) in
  (shouldRecreateKeys d s = Ret true s <-> flagOrEmpty d)
  /\ ((exists s', processKeys X s = Ret tt s' /\ keysRegenerated X s s') <-> flagOrEmpty d)
  /\ (flagOrEmpty d -> exists s', processProps X s = Ret tt s' /\ keysRegenerated X s s')
  /\ (truthy (getp d "gatekeeper_recreatekeys") = false ->
      forall len, keyEntriesLength d = Some len -> len <> VNum 0 ->
      processKeys X s = Ret tt s
      /\ exists s', processProps X s = Ret tt s'
                    /\ data_at "gatekeeper_keys" s' = data_at "gatekeeper_keys" s
                    /\ rng s' = rng s)
  /\ (truthy (getp d "gatekeeper_recreatekeys") = false ->
      keyEntriesLength d = None ->
      processProps X s = Throw "TypeError" s).
Proof.
  intros d.
  pose proof (shouldRecreateKeys_eq d s) as Hs.
  split; [apply shouldRecreateKeys_true |].
  split; [split |]; [| | split; [| split]].
  - intros (s' & E & _ & _ & Hr).
    unfold flagOrEmpty. destruct (truthy _); [by left |].
    destruct (keyEntriesLength d) as [len |].
    + destruct (strict_eq len (VNum 0)) eqn:Hz.
      * right. f_equal. by apply strict_eq_zero.
      * rewrite (processKeys_passes X s Hs) in E. apply Ret_inj in E. subst s'. lia.
    + rewrite (processKeys_throws X s _ Hs) in E. discriminate.
  - intros Ht. apply processKeys_regenerates. by apply shouldRecreateKeys_true.
  - intros Ht.
    destruct (processKeys_regenerates X s) as (s0 & Hk & Hb & Hf & Hr);
      [by apply shouldRecreateKeys_true |].
    destruct (processProps_after_keys X s s0 Hk) as (s' & E & H1 & H2 & H3).
    exists s'. split; [exact E |]. unfold keysRegenerated. by rewrite H1, H2, H3.
  - intros Hf len Hl Hne. rewrite Hf, Hl in Hs.
    destruct (strict_eq len (VNum 0)) eqn:Hz; [by apply strict_eq_zero in Hz |].
    pose proof (processKeys_passes X s Hs) as Hk.
    split; [exact Hk |].
    destruct (processProps_after_keys X s s Hk) as (s' & E & H1 & _ & H3). eauto.
  - intros Hf Hl. rewrite Hf, Hl in Hs.
    unfold processProps, bind. by rewrite (processKeys_throws X s _ Hs).
Qed.

Lemma keys_regenerated_iff_flag_or_empty_witness :
  let X := demo true demo_cert_ok in
  let flagged := set_this (set_data (insert "gatekeeper_recreatekeys" (VBool true)))
                          (demo_state demo_env demo_disk []) in
  let settled := demo_loaded ∅ [] in
  (exists s', processProps X flagged = Ret tt s' /\ keysRegenerated X flagged s')
  /\ processKeys X settled = Ret tt settled
  /\ (exists s', processProps X settled = Ret tt s'
                 /\ data_at "gatekeeper_keys" s' = Some demo_keys).
Proof.
  intros X flagged settled. split.
  - apply (keys_regenerated_iff_flag_or_empty X flagged). left. vm_compute. reflexivity.
  - destruct (keys_regenerated_iff_flag_or_empty X settled) as (_ & _ & _ & Hno & _).
    destruct (Hno ltac:(vm_compute; reflexivity) (VNum 1) ltac:(vm_compute; reflexivity)
                ltac:(discriminate)) as (Hk & s' & E & Hd & _).
    split; [exact Hk |]. exists s'. split; [exact E |]. rewrite Hd. vm_compute. reflexivity.
Defined.

(** ** Certificate regeneration *)

Lemma shouldRecreateCert_data_at d d' :
  d' !! "gatekeeper_recreatecert" = d !! "gatekeeper_recreatecert" ->
  d' !! "gatekeeper_sslcert" = d !! "gatekeeper_sslcert" ->
  d' !! "gatekeeper_sslkey" = d !! "gatekeeper_sslkey" ->
  shouldRecreateCert d' = shouldRecreateCert d.
Proof. unfold shouldRecreateCert, getp. intros -> -> ->. reflexivity. Qed.

(** The keys step leaves the certificate's trigger as it is. *)
Lemma processKeys_shouldRecreateCert X s s0 :
  processKeys X s = Ret tt s0 ->
  shouldRecreateCert (data (config (this s0))) = shouldRecreateCert (data (config (this s))).
Proof.
  intros H. apply shouldRecreateCert_data_at.
  - exact (keeps_Ret (data_at "gatekeeper_recreatecert") _ _ _ _
             (processKeys_keeps_data X "gatekeeper_recreatecert" ltac:(discriminate) ltac:(discriminate)) H).
  - exact (keeps_Ret (data_at "gatekeeper_sslcert") _ _ _ _
             (processKeys_keeps_data X "gatekeeper_sslcert" ltac:(discriminate) ltac:(discriminate)) H).
  - exact (keeps_Ret (data_at "gatekeeper_sslkey") _ _ _ _
             (processKeys_keeps_data X "gatekeeper_sslkey" ltac:(discriminate) ltac:(discriminate)) H).
Qed.

Lemma processProps_attempt X s s0 :
  processKeys X s = Ret tt s0 ->
  shouldRecreateCert (data (config (this s))) = true ->
  processProps X s = createCert X (certAttemptState X s0).
Proof.
  intros Hk Hc. rewrite <- (processKeys_shouldRecreateCert X s s0 Hk) in Hc.
  unfold processProps. rewrite (bind_Ret _ _ _ _ _ Hk).
  do 2 run_step. unfold processCert. run_step.
  cbn [this config data set_this set_sessionData set_config].
  rewrite Hc. do 2 run_step. reflexivity.
Qed.

(** C5. Whenever certificate regeneration is triggered, the generation
    attempt starts in a state whose document no longer has the
    recreate-cert flag, and the flag is absent when [processProps] returns,
    whatever [cert.create] did: succeed, fail with a code, or throw. *)
Theorem recreatecert_flag_consumed_on_attempt X s s0 :
  processKeys X s = Ret tt s0 ->
  shouldRecreateCert (data (config (this s))) = true ->
  exists s1 s2,
    processProps X s = createCert X s1
    /\ data_at "gatekeeper_recreatecert" s1 = None
    /\ createCert X s1 = Ret tt s2
    /\ data_at "gatekeeper_recreatecert" s2 = None.
Proof.
  intros Hk Hc. exists (certAttemptState X s0).
  destruct (createCert_returns X (certAttemptState X s0)) as [s2 E]. exists s2.
  assert (data_at "gatekeeper_recreatecert" (certAttemptState X s0) = None) as Hnone.
  { unfold data_at, certAttemptState. cbn [this config data set_this set_data set_config
      set_console set_sessionData sessionData]. apply lookup_delete_eq. }
  split; [by apply processProps_attempt |].
  split; [exact Hnone |]. split; [exact E |].
  rewrite <- Hnone.
  exact (keeps_Ret (data_at "gatekeeper_recreatecert") _ _ _ _
           (createCert_keeps_data X "gatekeeper_recreatecert" ltac:(discriminate) ltac:(discriminate)) E).
Qed.

Lemma recreatecert_flag_consumed_on_attempt_witness :
  let X := demo true demo_cert_failed in
  let s := demo_loaded {[ "gatekeeper_recreatecert" := VBool true ]} [] in
  data_at "gatekeeper_recreatecert" s = Some (VBool true)
  /\ exists s2, processProps X s = Ret tt s2 /\ data_at "gatekeeper_recreatecert" s2 = None.
Proof.
  intros X s. split; [vm_compute; reflexivity |].
  destruct (recreatecert_flag_consumed_on_attempt X s s
              ltac:(vm_compute; reflexivity) ltac:(vm_compute; reflexivity))
    as (s1 & s2 & E1 & _ & E2 & H).
  exists s2. split; [congruence | exact H].
Defined.

Lemma createCert_failed X s :
  certFailed (Cert_create X (getp (sessionData (this s)) "cns")) ->
  createCert X s = Ret tt (set_console (fun c => c ++ [msg_cert_not_created]) s).
Proof.
  unfold certFailed, createCert, try_catch, bind, get.
  destruct (Cert_create X _) as [e | result]; [reflexivity |].
  intros ->. reflexivity.
Qed.

(** C6. If the certificate generation that [processProps] attempts throws
    or returns a completion code other than 0, [processProps] returns
    normally, the document's TLS key and certificate are what they were
    before, and the only trace of the failure is its line on the console. *)
Theorem cert_failure_keeps_prior_key_and_cert X s s0 :
  processKeys X s = Ret tt s0 ->
  shouldRecreateCert (data (config (this s))) = true ->
  certFailed (Cert_create X (Cert_cns X (getp (data (config (this s))) "gatekeeper_cns"))) ->
  exists s',
    processProps X s = Ret tt s'
    /\ data_at "gatekeeper_sslkey" s' = data_at "gatekeeper_sslkey" s
    /\ data_at "gatekeeper_sslcert" s' = data_at "gatekeeper_sslcert" s
    /\ console s' = console s ++ [msg_generating_cert; msg_cert_not_created]
    /\ fs s' = fs s.
Proof.
  intros Hk Hc Hf.
  assert (data_at "gatekeeper_cns" s0 = data_at "gatekeeper_cns" s) as Hcns
    by exact (keeps_Ret (data_at "gatekeeper_cns") _ _ _ _
             (processKeys_keeps_data X "gatekeeper_cns" ltac:(discriminate) ltac:(discriminate)) Hk).
  assert (data_at "gatekeeper_sslkey" s0 = data_at "gatekeeper_sslkey" s) as Hkey
    by exact (keeps_Ret (data_at "gatekeeper_sslkey") _ _ _ _
             (processKeys_keeps_data X "gatekeeper_sslkey" ltac:(discriminate) ltac:(discriminate)) Hk).
  assert (data_at "gatekeeper_sslcert" s0 = data_at "gatekeeper_sslcert" s) as Hcert
    by exact (keeps_Ret (data_at "gatekeeper_sslcert") _ _ _ _
             (processKeys_keeps_data X "gatekeeper_sslcert" ltac:(discriminate) ltac:(discriminate)) Hk).
  assert ((fs s0, console s0) = (fs s, console s)) as Hio.
  { apply (keeps_Ret (fun s => (fs s, console s)) (processKeys X) s tt s0); [| exact Hk].
    unfold processKeys, shouldRecreateKeys, setData, deleteData.
    keeps_auto; try (apply keeps_createKeys; intros ? ?; reflexivity);
      apply keeps_modify; intros; reflexivity. }
  injection Hio as Hfs Hcon.
  rewrite (processProps_attempt X s s0 Hk Hc).
  rewrite createCert_failed.
  - eexists. split; [reflexivity |].
    unfold certAttemptState, data_at in *.
    cbn [this config data set_this set_data set_config set_console set_sessionData
         sessionData console fs].
    rewrite !lookup_delete_ne by discriminate.
    rewrite <- app_assoc, Hcon.
    repeat split; assumption.
  - unfold certAttemptState.
    cbn [this config data set_this set_data set_config set_console set_sessionData sessionData].
    unfold getp at 1. rewrite lookup_insert_eq. cbn [default].
    rewrite (getp_data_at _ _ _ Hcns). exact Hf.
Qed.

Lemma cert_failure_keeps_prior_key_and_cert_witness :
  let X := demo true demo_cert_failed in
  let s := demo_loaded {[ "gatekeeper_recreatecert" := VBool true ]} [] in
  exists s',
    processProps X s = Ret tt s'
    /\ data_at "gatekeeper_sslkey" s' = Some (VStr (js "old-key"))
    /\ data_at "gatekeeper_sslcert" s' = Some (VStr (js "old-cert"))
    /\ console s' = [msg_generating_cert; msg_cert_not_created].
Proof.
  intros X s.
  destruct (cert_failure_keeps_prior_key_and_cert X s s
              ltac:(vm_compute; reflexivity) ltac:(vm_compute; reflexivity)
              ltac:(vm_compute; reflexivity))
    as (s' & E & Hkey & Hcert & Hcon & _).
  exists s'. split; [exact E |].
  rewrite Hkey, Hcert, Hcon. repeat split; vm_compute; reflexivity.
Defined.

(** ** Writing the files *)

Lemma keeps_serialize {B} X (f : state -> B) p password :
  blind_to_fs f -> keeps f (serialize X p password).
Proof. intros H s. apply H. Qed.

Lemma keeps_writeEntry {B} X (f : state -> B) p password entry content :
  blind_to_fs f -> keeps f (writeEntry X p password entry content).
Proof. intros H s. apply H. Qed.

Lemma keeps_writeFileSync {B} (f : state -> B) p content :
  blind_to_fs f -> keeps f (writeFileSync p content).
Proof.
  intros H s. unfold writeFileSync.
  destruct (dir_error _ _); [reflexivity |]. destruct (fs s !! p) as [[|]|]; simpl; auto.
Qed.

Lemma keeps_mkdirSync {B} (f : state -> B) p :
  blind_to_fs f -> keeps f (mkdirSync p).
Proof. intros H s. unfold mkdirSync. destruct (nearest _ _ _) as [[|]|]; simpl; auto. Qed.

Lemma keeps_unlinkSync {B} (f : state -> B) p :
  blind_to_fs f -> keeps f (unlinkSync p).
Proof. intros H s. unfold unlinkSync. destruct (fs s !! p) as [[|]|]; simpl; auto. Qed.

Lemma put_node_lookup p n d : put_node p n d !! p = n.
Proof. destruct n; simpl; [apply lookup_insert_eq | apply lookup_delete_eq]. Qed.

(** The wizard, [processProps] and the first part of [writeFiles] leave the
    saved client keys password alone. *)
Lemma startWizard_keeps_session X k : keeps (session_at k) (startWizard X).
Proof.
  unfold startWizard, setData.
  keeps_auto; apply keeps_modify; intros; reflexivity.
Qed.

Lemma processProps_keeps_session X k : k <> "cns" -> keeps (session_at k) (processProps X).
Proof.
  intros Hk.
  unfold processProps, processKeys, shouldRecreateKeys, processCert, createCert,
    setData, deleteData, setSession.
  keeps_auto; try (apply keeps_createKeys; intros ? ?; reflexivity);
    apply keeps_modify; intros s; try reflexivity.
  unfold session_at. simpl. apply lookup_insert_ne. congruence.
Qed.

Lemma writeTemplate_keeps_session X k name t : keeps (session_at k) (writeTemplate X name t).
Proof.
  unfold writeTemplate.
  keeps_auto;
    first [ apply keeps_mkdirSync | apply keeps_writeFileSync ]; intros ? ?; reflexivity.
Qed.

Lemma writeConfigAndTemplates_keeps_session X k :
  keeps (session_at k) (writeConfigAndTemplates X).
Proof.
  unfold writeConfigAndTemplates, writeConfigArchive, writeTemplates.
  keeps_auto;
    first [ apply keeps_serialize; intros ? ?; reflexivity
          | apply writeTemplate_keeps_session
          | apply keeps_modify; intros; reflexivity ].
Qed.

(** The password [interview] saves is the document's, as it is before the
    wizard runs. *)
Lemma interview_snapshot X r missing s s_a :
  interview X r missing s = Ret tt s_a ->
  session_at "gatekeeper_clientkeyspassword" s_a =
  Some (getp (data (config (this s))) "gatekeeper_clientkeyspassword").
Proof.
  unfold interview. intros H. do 2 (erewrite bind_Ret in H by reflexivity).
  assert (keeps (session_at "gatekeeper_clientkeyspassword")
            ((if negb (length missing =? 0)%nat
              then setSession "markProperties" (VArr r missing) else ret tt) ;;
             startWizard X)) as Hkeeps.
  { unfold setSession.
    keeps_auto; try apply startWizard_keeps_session; apply keeps_modify; intros s0.
    unfold session_at. simpl. apply lookup_insert_ne. discriminate. }
  rewrite (keeps_Ret _ _ _ _ _ Hkeeps H).
  unfold session_at. simpl. apply lookup_insert_eq.
Qed.

(** The two entry writes never throw: a failed write is reported and the
    next one is attempted on what the first left. *)
Lemma writeKeyArchive_array X ref items s :
  let p := destinationPath X keyArchiveFileName in
  let password := getp (data (config (this s))) "gatekeeper_clientkeyspassword" in
  let first := Archive_writeEntry X (fs s !! p) password (js "keys.txt")
                 (VStr (array_join [10%N] items)) in
  let second := Archive_writeEntry X (wr_node first) password (js "cacert.pem")
                  (getp (data (config (this s))) "gatekeeper_sslcert") in
  exists s2,
    writeKeyArchive X (VArr ref items) s = Ret tt s2
    /\ fs s2 !! p = wr_node second
    /\ console s2 = console s ++ (if wr_ok first then [] else [msg_client_not_written])
                             ++ (if wr_ok second then [] else [msg_client_not_written]).
Proof.
  intros p password first second.
  unfold writeKeyArchive, bind, get, ret, writeEntry, console_log, modify.
  fold p. fold password. fold first.
  destruct (wr_ok first) eqn:E1; cbn [negb fs set_fs set_console this config data];
    rewrite put_node_lookup; fold password; fold second;
    destruct (wr_ok second) eqn:E2; cbn [negb fs set_fs set_console];
    eexists; (split; [reflexivity |]); cbn [fs set_fs set_console console];
    (split; [apply put_node_lookup |]);
    rewrite ?app_nil_r; try rewrite <- app_assoc; reflexivity.
Qed.

(** The password saved by an interactive run is, when the client key
    archive is about to be written, the document's as it was before the
    wizard ran. *)
Lemma saved_password_is_snapshot X r missing s s_a s_b s_w :
  interview X r missing s = Ret tt s_a ->
  processProps X s_a = Ret tt s_b ->
  writeConfigAndTemplates X s_b = Ret tt s_w ->
  getp (sessionData (this s_w)) "gatekeeper_clientkeyspassword"
  = getp (data (config (this s))) "gatekeeper_clientkeyspassword".
Proof.
  intros Hi Hp Hw.
  pose proof (interview_snapshot X r missing s s_a Hi) as H1.
  pose proof (keeps_Ret (session_at "gatekeeper_clientkeyspassword") _ _ _ _
                (processProps_keeps_session X "gatekeeper_clientkeyspassword"
                   ltac:(discriminate)) Hp) as H2.
  pose proof (keeps_Ret (session_at "gatekeeper_clientkeyspassword") _ _ _ _
                (writeConfigAndTemplates_keeps_session X _) Hw) as H3.
  unfold session_at in *. unfold getp. rewrite H3, H2, H1. reflexivity.
Qed.

(** The client key step on a document that has client information: the
    existing archive is deleted exactly when the saved password and the
    document's differ and the file exists; the entries are written next. *)
Lemma writeClientKeys_deletes_iff_saved_differs X s_w :
  truthy (clientInformationOf (data (config (this s_w)))) = true ->
  fs s_w !! destinationPath X keyArchiveFileName <> Some Dir ->
  let p := destinationPath X keyArchiveFileName in
  let deleted :=
    strict_neq (getp (sessionData (this s_w)) "gatekeeper_clientkeyspassword")
               (getp (data (config (this s_w))) "gatekeeper_clientkeyspassword")
    && bool_decide (is_Some (fs s_w !! p)) in
  writeClientKeys X s_w
  = writeKeyArchive X (clientInformationOf (data (config (this s_w))))
      (set_fs (if deleted then delete p else fun d => d)
         (set_console (fun c => c ++ [msg_create keyArchiveFileName]) s_w)).
Proof.
  intros Hinfo Hdir p deleted.
  unfold writeClientKeys, removeStaleKeyArchive.
  do 2 run_step. cbn [this config data set_console].
  rewrite Hinfo.
  unfold bind at 1. unfold bind at 1. unfold get at 1. unfold bind at 1.
  unfold existsSync at 1.
  cbn [this config data sessionData set_console fs].
  fold p. fold deleted.
  destruct deleted eqn:Hd; [| reflexivity].
  unfold deleted in Hd. apply andb_prop in Hd as [_ Hex].
  apply bool_decide_eq_true in Hex. destruct Hex as [n Hn].
  unfold unlinkSync. cbn [fs set_console]. rewrite Hn.
  destruct n as [c |]; [reflexivity | exfalso; apply Hdir; exact Hn].
Qed.

Lemma resolveCustomPath_other d p k : k <> p -> resolveCustomPath d p !! k = d !! k.
Proof.
  intros H. unfold resolveCustomPath.
  destruct (strict_eq _ _); [| reflexivity]. apply lookup_insert_ne. congruence.
Qed.

Lemma resolveCustomPaths_other l :
  forall d k, k ∉ l -> fold_left resolveCustomPath l d !! k = d !! k.
Proof.
  induction l as [| p l IH]; intros d k Hk; [reflexivity |].
  cbn [fold_left]. rewrite IH by set_solver. apply resolveCustomPath_other. set_solver.
Qed.

(** [processProps] and the first part of [writeFiles] leave the client keys
    password of the document alone. *)
Lemma processProps_keeps_data X k :
  k <> "gatekeeper_recreatekeys" -> k <> "gatekeeper_keys" ->
  k <> "gatekeeper_sslkey" -> k <> "gatekeeper_sslcert" -> k <> "gatekeeper_recreatecert" ->
  keeps (data_at k) (processProps X).
Proof.
  intros H1 H2 H3 H4 H5. unfold processProps, setSession.
  keeps_auto;
    [ by apply processKeys_keeps_data
    | apply keeps_modify; intros; reflexivity
    | by apply processCert_keeps_data ].
Qed.

Lemma writeConfigAndTemplates_keeps_data X k :
  k ∉ pathProps -> keeps (data_at k) (writeConfigAndTemplates X).
Proof.
  intros Hk.
  unfold writeConfigAndTemplates, writeConfigArchive, writeTemplates, writeTemplate.
  keeps_auto;
    first [ apply keeps_serialize; intros ? ?; reflexivity
          | apply keeps_mkdirSync; intros ? ?; reflexivity
          | apply keeps_writeFileSync; intros ? ?; reflexivity
          | apply keeps_modify; intros s0; unfold data_at;
            cbn [this config data set_this set_data set_config];
            by apply resolveCustomPaths_other ].
Qed.

(** The configuration archive step never throws: a failed write is
    reported on the console and nothing else. *)
Lemma writeConfigArchive_returns X s :
  let p := destinationPath X configArchiveFileName in
  let w := Config_serialize X (data (config (this s))) (fs s !! p)
             (getp (sessionData (this s)) "configurationPassword") in
  exists s1,
    writeConfigArchive X s = Ret tt s1
    /\ console s1 = console s ++ msg_create configArchiveFileName
                                 :: (if wr_ok w then [] else [msg_config_not_written]).
Proof.
  intros p w.
  unfold writeConfigArchive, bind, get, ret, serialize, console_log, modify.
  cbn [this config data sessionData set_console fs]. fold p. fold w.
  destruct (wr_ok w); cbn [negb]; eexists; (split; [reflexivity |]);
    cbn [console set_console set_fs]; [| rewrite <- app_assoc]; reflexivity.
Qed.

(** C10. Whenever [writeFiles] runs to its end, the status file holds
    [EXIT_STATUS=0]. The steps that can report a failed write, the
    configuration archive and the two entries of the client key archive,
    always return, whatever the writes answered: the report is a line on
    the console, and the run goes on to the status file. *)
Theorem sentinel_written_whenever_writeFiles_ends X s s' :
  writeFiles X s = Ret tt s' ->
  fs s' !! exitStatusPath X = Some (File (js "EXIT_STATUS=0"))
  /\ (forall s0, exists s1,
        writeConfigArchive X s0 = Ret tt s1
        /\ console s1 =
             console s0 ++ msg_create configArchiveFileName
               :: (if wr_ok (Config_serialize X (data (config (this s0)))
                               (fs s0 !! destinationPath X configArchiveFileName)
                               (getp (sessionData (this s0)) "configurationPassword"))
                   then [] else [msg_config_not_written]))
  /\ (forall ref items s0, exists s1, writeKeyArchive X (VArr ref items) s0 = Ret tt s1).
Proof.
  intros H. split; [| split].
  - unfold writeFiles in H. unfold bind in H.
    destruct (writeConfigAndTemplates X s) as [[] s1 | | |]; try discriminate.
    destruct (writeClientKeys X s1) as [[] s2 | | |]; try discriminate.
    unfold writeFileSync in H.
    destruct (dir_error _ _); [discriminate |].
    destruct (fs s2 !! exitStatusPath X) as [[c |] |]; try discriminate;
      injection H as <-; cbn [fs set_fs]; apply lookup_insert_eq.
  - intros s0. apply writeConfigArchive_returns.
  - intros ref items s0.
    destruct (writeKeyArchive_array X ref items s0) as (s1 & E & _). eauto.
Qed.

Lemma sentinel_written_whenever_writeFiles_ends_witness :
  let X := demo false demo_cert_ok in
  let s := demo_loaded ∅ [] in
  exists s',
    writeFiles X s = Ret tt s'
    /\ fs s' !! js "/data/exitStatus.sh" = Some (File (js "EXIT_STATUS=0"))
    /\ console s' = [ msg_create configArchiveFileName; msg_config_not_written;
                      msg_create (js "gatekeeper/keys.properties");
                      msg_create keyArchiveFileName;
                      msg_client_not_written; msg_client_not_written ].
Proof.
  intros X s. exists (final (writeFiles X s)).
  assert (writeFiles X s = Ret tt (final (writeFiles X s))) as E by (vm_compute; reflexivity).
  split; [exact E |].
  split; [exact (proj1 (sentinel_written_whenever_writeFiles_ends X s _ E)) |].
  vm_compute. reflexivity.
Defined.

(** ** The configuration archive and its password *)

Lemma truthy_VStr s : truthy (VStr s) = true <-> s <> [].
Proof. destruct s; simpl; split; congruence. Qed.

Lemma getp_typed0 x y : getp (typed x y) "password0" = trimFilter x.
Proof. unfold getp, typed. by rewrite lookup_insert_eq. Qed.

Lemma getp_typed1 x y : getp (typed x y) "password1" = trimFilter y.
Proof. unfold getp, typed. by rewrite lookup_insert_ne, lookup_insert_eq. Qed.

Lemma askAgain_typed x y : askAgain (typed x y) = false <-> acceptable x y.
Proof.
  unfold askAgain, acceptable. rewrite getp_typed0, getp_typed1.
  unfold trimFilter, strict_neq. cbn [strict_eq]. unfold jsstring_eqb.
  rewrite !orb_false_iff, !negb_false_iff, !truthy_VStr.
  rewrite bool_decide_eq_true. tauto.
Qed.

Lemma prompt_newPassword x y k s :
  keyboard s = x :: y :: k ->
  prompt newPasswordQuestions s = Ret (typed x y) (set_keyboard k s).
Proof.
  intros H. unfold prompt, newPasswordQuestions, inquirer_prompt, bind, ask.
  rewrite H. cbn [keyboard set_keyboard q_filter q_name passwordQuestion ret fst snd].
  reflexivity.
Qed.

Lemma newPasswordLoop_accepts rejected :
  forall fuel r s a b rest,
    (length rejected + 2 <= fuel)%nat ->
    askAgain r = true ->
    Forall (fun xy => ~ acceptable xy.1 xy.2) rejected ->
    acceptable a b ->
    keyboard s = typed_in rejected ++ a :: b :: rest ->
    exists s',
      newPasswordLoop fuel r s = Ret (typed a b) s'
      /\ keyboard s' = rest
      /\ console s' = console s ++ complaints r rejected.
Proof.
  induction rejected as [| [x y] rejected IH]; intros fuel r s a b rest Hfuel Hr Hrej Hab Hkb.
  - destruct fuel as [| [| n]]; simpl in Hfuel; try lia.
    cbn [newPasswordLoop]. rewrite Hr.
    assert (exists s1, (if mismatch r then console_log msg_passwords_do_not_match else ret tt) s
                       = Ret tt s1
                       /\ keyboard s1 = keyboard s
                       /\ console s1 = console s ++ complaint r) as (s1 & E1 & Hk1 & Hc1).
    { unfold complaint. destruct (mismatch r); eexists; (split; [reflexivity |]);
        (split; [reflexivity |]); simpl; by rewrite ?app_nil_r. }
    rewrite (bind_Ret _ _ _ _ _ E1).
    rewrite (bind_Ret _ _ _ _ _ (prompt_newPassword a b rest s1 ltac:(by rewrite Hk1))).
    apply askAgain_typed in Hab. rewrite Hab.
    eexists. split; [reflexivity |]. split; [reflexivity |].
    unfold complaints. simpl. by rewrite Hc1, app_nil_r.
  - destruct fuel as [| n]; simpl in Hfuel; try lia.
    cbn [newPasswordLoop]. rewrite Hr.
    assert (exists s1, (if mismatch r then console_log msg_passwords_do_not_match else ret tt) s
                       = Ret tt s1
                       /\ keyboard s1 = keyboard s
                       /\ console s1 = console s ++ complaint r) as (s1 & E1 & Hk1 & Hc1).
    { unfold complaint. destruct (mismatch r); eexists; (split; [reflexivity |]);
        (split; [reflexivity |]); simpl; by rewrite ?app_nil_r. }
    rewrite (bind_Ret _ _ _ _ _ E1).
    rewrite (bind_Ret _ _ _ _ _
               (prompt_newPassword x y (typed_in rejected ++ a :: b :: rest) s1
                  ltac:(by rewrite Hk1, Hkb))).
    inversion Hrej as [| ? ? Hxy Hrej']; subst.
    destruct (IH n (typed x y) (set_keyboard (typed_in rejected ++ a :: b :: rest) s1)
                a b rest) as (s' & E & Hk & Hc); try assumption.
    + lia.
    + destruct (askAgain (typed x y)) eqn:Ha; [reflexivity |].
      apply askAgain_typed in Ha. contradiction.
    + reflexivity.
    + exists s'. split; [exact E |]. split; [exact Hk |].
      rewrite Hc. cbn [console set_keyboard]. rewrite Hc1.
      unfold complaints. cbn [flat_map fst snd]. by rewrite <- !app_assoc.
Qed.

Lemma isChecked_returns name v s :
  indexable (getp (data (config (this s))) name) ->
  exists c, isChecked name v s = Ret c s.
Proof.
  unfold isChecked, bind, get. intros [H | [(r & items & H) | (h & H)]]; rewrite H.
  - cbn [negb]. eauto.
  - cbn [truthy negb]. eauto.
  - destruct (truthy (VStr h)); cbn [negb]; eauto.
Qed.

Lemma checkFeatures_returns todo :
  forall seen s,
    indexable (getp (data (config (this s))) "features") ->
    exists s', checkFeatures seen todo s = Ret tt s'.
Proof.
  induction todo as [| c rest IH]; intros seen s H; cbn [checkFeatures].
  - eexists. reflexivity.
  - destruct (isChecked_returns "features" (f_value c) s H) as [v E].
    rewrite (bind_Ret _ _ _ _ _ E). run_step. apply IH. exact H.
Qed.

(** C7. When no configuration archive exists, the operator is asked for the
    two entries again and again: every pair that is not acceptable (an
    entry empty once trimmed, or two different entries) is rejected, with a
    complaint when both entries were given; the first acceptable pair
    ends the loop, and its trimmed first entry becomes the configuration
    password of the new document, whose admin hash is derived from it.
    Pairs typed after that are left unread. *)
Theorem new_password_retried_until_pair_matches X s rejected a b rest :
  fs s !! destinationPath X configArchiveFileName = None ->
  keyboard s = typed_in rejected ++ a :: b :: rest ->
  Forall (fun xy => ~ acceptable xy.1 xy.2) rejected ->
  acceptable a b ->
  indexable (getp (data (Config_new X)) "features") ->
  exists s',
    setupConfigArchive X s = Ret tt s'
    /\ session_at "configurationPassword" s' = Some (VStr (trim (to_string a)))
    /\ data (config (this s')) =
         <["adminhash" := htpasswd X (VStr (trim (to_string a)))]> (data (Config_new X))
    /\ keyboard s' = rest
    /\ console s' = console s ++ complaints ∅ rejected
    /\ fs s' = fs s.
Proof.
  intros Hfs Hkb Hrej Hab Hfeat.
  unfold setupConfigArchive. run_step.
  unfold bind at 1. unfold bind at 1. unfold existsSync at 1.
  cbn [fs set_this]. rewrite Hfs.
  rewrite bool_decide_eq_false_2 by (intros [? ?]; discriminate).
  cbn [negb]. unfold choosePassword.
  set (s0 := set_this (set_config (Config_new X)) s).
  unfold bind at 1. unfold bind at 1. unfold get at 1.
  destruct (newPasswordLoop_accepts rejected (S (length (keyboard s0))) ∅ s0 a b rest)
    as (s1 & E1 & Hk1 & Hc1); try assumption.
  { cbn [keyboard s0 set_this]. rewrite Hkb, length_app.
    assert (length (typed_in rejected) = 2 * length rejected)%nat as ->.
    { clear. induction rejected as [| [x y] l IH]; simpl; lia. }
    simpl. lia. }
  { reflexivity. }
  rewrite E1.
  pose proof (keeps_Ret (fun s => (this s, fs s)) _ _ _ _
                (keeps_newPasswordLoop (fun s => (this s, fs s)) _
                   ltac:(intros ? ?; reflexivity)
                   ltac:(intros ? ?; reflexivity) ∅) E1) as Hframe.
  injection Hframe as Hthis Hfs1.
  unfold setSession at 1. unfold modify at 1.
  unfold bind at 1. unfold get at 1. unfold bind at 1.
  unfold setData at 1. unfold modify at 1.
  unfold bind at 1. unfold get at 1.
  match goal with |- context [checkFeatures [] ?l ?st] =>
    destruct (checkFeatures_returns l [] st) as (s' & E');
      [| pose proof (keeps_Ret outside_features _ _ _ _
                       (keeps_checkFeatures outside_features l
                          ltac:(intros ? ?; reflexivity) []) E') as Hout ]
  end.
  { cbn [this config data set_this set_data set_config set_sessionData sessionData].
    rewrite Hthis. unfold getp. rewrite lookup_insert_ne by discriminate. exact Hfeat. }
  exists s'. split; [exact E' |].
  unfold outside_features in Hout.
  cbn [this config data set_this set_data set_config set_sessionData sessionData
       fs console keyboard] in Hout.
  injection Hout as Hs Hc Hf Hco Hk.
  unfold session_at. rewrite Hs, Hc, Hk, Hco, Hf, Hthis.
  cbn [data config sessionData s0 set_this set_config].
  rewrite getp_typed0. unfold trimFilter.
  split; [apply lookup_insert_eq |].
  split; [unfold getp; by rewrite lookup_insert_eq |].
  repeat split; assumption.
Qed.

Lemma new_password_retried_until_pair_matches_witness :
  let X := demo true demo_cert_ok in
  let s := demo_state demo_env ∅
             [ VStr (js " abc "); VStr (js "abd"); VStr []; VStr (js "x");
               VStr (js " abc123 "); VStr (js "abc123"); VBool false ] in
  exists s',
    setupConfigArchive X s = Ret tt s'
    /\ session_at "configurationPassword" s' = Some (VStr (js "abc123"))
    /\ keyboard s' = [VBool false]
    /\ console s' = [msg_passwords_do_not_match].
Proof.
  intros X s.
  destruct (new_password_retried_until_pair_matches X s
              [ (VStr (js " abc "), VStr (js "abd")); (VStr [], VStr (js "x")) ]
              (VStr (js " abc123 ")) (VStr (js "abc123")) [VBool false])
    as (s' & E & Hp & _ & Hk & Hc & _).
  - vm_compute. reflexivity.
  - reflexivity.
  - repeat constructor; intros (H1 & H2 & H3); vm_compute in H1, H3; congruence.
  - repeat split; vm_compute; congruence.
  - left. vm_compute. reflexivity.
  - exists s'. split; [exact E |]. split; [exact Hp |]. split; [exact Hk |].
    rewrite Hc. vm_compute. reflexivity.
Defined.

Lemma resolvePassword_keeps_fs : keeps fs resolvePassword.
Proof.
  unfold resolvePassword, setSession.
  keeps_auto; try (apply keeps_modify; intros; reflexivity).
  apply keeps_passwordLoop. intros ? ?. reflexivity.
Qed.

Lemma existsSync_true p s : is_Some (fs s !! p) -> existsSync p s = Ret true s.
Proof. intros H. unfold existsSync. by rewrite bool_decide_eq_true_2. Qed.

(** C2 (as the code has it). When the configuration archive exists and,
    with the password that was obtained from the environment or from the
    operator, [config.deserialize] throws [e], whatever the cause,
    [setupConfigArchive] prints [e] and ends the process by
    [process.exit()] without a status: the process exits with status 0.
    Nothing was written: the disk is what it was. *)
Theorem decryption_failure_exits_with_status_zero X s s1 e :
  is_Some (fs s !! destinationPath X configArchiveFileName) ->
  resolvePassword (set_this (set_config (Config_new X)) s) = Ret tt s1 ->
  Config_deserialize X (fs s1 !! destinationPath X configArchiveFileName)
    (getp (sessionData (this s1)) "configurationPassword") = inl e ->
  setupConfigArchive X s = Exit 0 (set_console (fun c => c ++ [js e]) s1)
  /\ fs s1 = fs s.
Proof.
  intros Hex Hpw Hde. split.
  - unfold setupConfigArchive. run_step.
    erewrite bind_Ret; [| apply existsSync_true; exact Hex].
    cbn [negb]. unfold bind at 1. unfold try_catch at 1.
    rewrite (bind_Ret _ _ _ _ _ Hpw).
    unfold loadConfigArchive, try_catch, deserialize, bind, get.
    rewrite Hde. reflexivity.
  - exact (keeps_Ret fs _ _ _ _ resolvePassword_keeps_fs Hpw).
Qed.

Lemma decryption_failure_exits_with_status_zero_witness :
  let X := demo true demo_cert_ok in
  let s := demo_state (<["CFG_PASSWORD" := js "wrong"]> demo_env) demo_disk [] in
  exists s',
    setupConfigArchive X s = Exit 0 s'
    /\ fs s' = demo_disk
    /\ console s' = [js "Error: wrong password or corrupt archive"].
Proof.
  intros X s.
  destruct (decryption_failure_exits_with_status_zero X s
              (final (resolvePassword (set_this (set_config (Config_new X)) s)))
              "Error: wrong password or corrupt archive"
              ltac:(vm_compute; eauto) ltac:(vm_compute; reflexivity)
              ltac:(vm_compute; reflexivity)) as [E _].
  eexists. split; [exact E |]. split; vm_compute; reflexivity.
Defined.

(** ** The session data *)

Lemma setupConfigArchive_keeps_fs X : keeps fs (setupConfigArchive X).
Proof.
  unfold setupConfigArchive, choosePassword, resolvePassword, loadConfigArchive,
    deserialize, setSession, setData.
  keeps_auto; try (apply keeps_modify; intros; reflexivity).
  - apply keeps_newPasswordLoop; intros ? ?; reflexivity.
  - apply keeps_passwordLoop; intros ? ?; reflexivity.
  - apply keeps_checkFeatures; intros ? ?; reflexivity.
Qed.

Lemma setupConfigArchive_keeps_session X k :
  k <> "configurationPassword" -> k <> "gatekeeper_clientkeyspassword_c" ->
  keeps (session_at k) (setupConfigArchive X).
Proof.
  intros H1 H2.
  unfold setupConfigArchive, choosePassword, resolvePassword, loadConfigArchive,
    deserialize, setSession, setData.
  keeps_auto;
    first [ apply keeps_newPasswordLoop; intros ? ?; reflexivity
          | apply keeps_passwordLoop; intros ? ?; reflexivity
          | apply keeps_checkFeatures; intros ? ?; reflexivity
          | apply keeps_modify; intros s; first [ reflexivity | unfold session_at; simpl;
              apply lookup_insert_ne; congruence ] ].
Qed.

Lemma initSession_keeps_fs X options : keeps fs (initSession X options).
Proof.
  unfold initSession, setSession.
  keeps_auto; apply keeps_modify; intros; reflexivity.
Qed.

(** Unfold [initSession] in [H : initSession X options s = Ret tt s0] down
    to the state it ends in. *)
Ltac run_initSession H :=
  unfold initSession in H;
  unfold bind at 1 in H; unfold get at 1 in H;
  unfold bind at 1 in H;
  match type of H with
  | context [truthy (env_get ?s "SETUP_DIR")] =>
      destruct (truthy (env_get s "SETUP_DIR"));
      [| destruct (env_get s "HOME"); try discriminate H ]
  end;
  unfold ret at 1 in H;
  unfold bind at 1 in H; unfold draw at 1 in H;
  unfold bind at 1 in H; unfold draw at 1 in H;
  unfold bind at 1 in H; unfold modify at 1 in H.

(** Reading a property of an object literal. *)
Lemma lookup_list_to_map_assoc (l : list (string * value)) k :
  (list_to_map l : gmap string value) !! k = assoc k l.
Proof.
  induction l as [| [k' v] l IH]; [apply lookup_empty |].
  rewrite list_to_map_cons. cbn [assoc fst snd].
  destruct (decide (k = k')) as [-> | Hne].
  - rewrite lookup_insert_eq. by rewrite bool_decide_eq_true_2.
  - rewrite lookup_insert_ne by congruence. by rewrite bool_decide_eq_false_2.
Qed.

Ltac read_property :=
  rewrite ?lookup_insert_ne by discriminate;
  first [ rewrite lookup_insert_eq | rewrite lookup_list_to_map_assoc ].

Lemma initSession_noWizard X options s s0 :
  initSession X options s = Ret tt s0 ->
  session_at "noWizard" s0 = Some (VBool (truthy (getp (default ∅ options) "noWizard"))).
Proof.
  intros H. run_initSession H.
  all: destruct (strict_eq (env_get s "VERSION_OVERRIDE") (VStr (js "true")));
    unfold forEach, setSession, bind, modify, ret in H; apply Ret_inj in H; subst s0;
    unfold session_at;
    cbn [this sessionData set_this set_sessionData set_rng];
    read_property; reflexivity.
Qed.

(** C9 (as stated, refuted). With the override set, one of the per-service
    version pins is not forced to ["latest"]: the Spark wallet pin is
    ["standalone"]. *)
Lemma version_override_not_all_latest :
  let X := demo true demo_cert_ok in
  let s := demo_state (<["VERSION_OVERRIDE" := js "true"]>
                       (<["SPARKWALLET_VERSION" := js "v0.2.17"]> demo_env)) ∅ [] in
  env s !! "VERSION_OVERRIDE" = Some (js "true")
  /\ exists s', initSession X None s = Ret tt s'
     /\ "sparkwallet_version" ∈ version_pins
     /\ session_at "sparkwallet_version" s' = Some (VStr (js "standalone"))
     /\ session_at "sparkwallet_version" s' <> Some (VStr (js "latest")).
Proof.
  intros X s. split; [vm_compute; reflexivity |].
  exists (final (initSession X None s)).
  split; [vm_compute; reflexivity |].
  split; [unfold version_pins; set_solver |].
  split; [vm_compute; reflexivity | vm_compute; discriminate].
Qed.

(** C9 (amended). With the override set to ["true"], whatever versions the
    environment names, the seven pins of the gatekeeper, the proxy, the
    proxy cron, pycoin, the OTS client, bitcoin and lightning are
    ["latest"], and the Spark wallet pin is ["standalone"]. *)
Theorem version_override_forces_floating_tags X options s s' :
  env s !! "VERSION_OVERRIDE" = Some (js "true") ->
  initSession X options s = Ret tt s' ->
  (forall pin, pin ∈ floating_pins -> session_at pin s' = Some (VStr (js "latest")))
  /\ session_at "sparkwallet_version" s' = Some (VStr (js "standalone")).
Proof.
  intros Hov H.
  assert (strict_eq (env_get s "VERSION_OVERRIDE") (VStr (js "true")) = true) as Hset.
  { unfold env_get. rewrite Hov. cbn [strict_eq]. unfold jsstring_eqb.
    by apply bool_decide_eq_true_2. }
  run_initSession H.
  all: rewrite Hset in H;
    unfold forEach, setSession, bind, modify, ret in H; apply Ret_inj in H; subst s';
    unfold session_at;
    cbn [this sessionData set_this set_sessionData set_rng];
    (split; [| read_property; reflexivity]);
    intros pin Hpin; unfold floating_pins in Hpin;
    repeat (apply elem_of_cons in Hpin as [-> | Hpin]);
    try (by apply elem_of_nil in Hpin);
    read_property; reflexivity.
Qed.

Lemma version_override_forces_floating_tags_witness :
  let X := demo true demo_cert_ok in
  let s := demo_state (<["VERSION_OVERRIDE" := js "true"]>
                       (<["BITCOIN_VERSION" := js "v22.0"]> demo_env)) ∅ [] in
  session_at "bitcoin_version" (final (initSession X None s)) = Some (VStr (js "latest"))
  /\ session_at "sparkwallet_version" (final (initSession X None s))
       = Some (VStr (js "standalone")).
Proof.
  intros X s.
  destruct (version_override_forces_floating_tags X None s (final (initSession X None s))
              ltac:(vm_compute; reflexivity) ltac:(vm_compute; reflexivity)) as [Hpins Hspark].
  split; [apply Hpins; unfold floating_pins; set_solver | exact Hspark].
Defined.

(** ** Unattended runs *)

Lemma forEach_console_log lines :
  forall s, exists s',
    forEach lines console_log s = Ret tt s'
    /\ this s' = this s /\ fs s' = fs s /\ console s' = console s ++ lines.
Proof.
  induction lines as [| l lines IH]; intros s; cbn [forEach].
  - exists s. by rewrite app_nil_r.
  - run_step. destruct (IH (set_console (fun c => c ++ [l]) s)) as (s' & E & Ht & Hf & Hc).
    exists s'. split; [exact E |]. split; [exact Ht |]. split; [exact Hf |].
    rewrite Hc. simpl. by rewrite <- app_assoc.
Qed.

(** C3. If an unattended run is requested and, once the configuration is
    set up, its schema check reports at least one missing required
    property, [start] prints the instruction to rerun interactively and
    exits with status 1; the disk is what it was when [start] began: no
    archive, no template and no status file was written. *)
Theorem unattended_missing_property_exits X options s s0 s1 :
  truthy (getp (default ∅ options) "noWizard") = true ->
  initSession X options s = Ret tt s0 ->
  setupConfigArchive X s0 = Ret tt s1 ->
  missingProperties (config (this s1)) <> [] ->
  exists s',
    start X options s = Exit 1 s'
    /\ fs s' = fs s
    /\ last (console s') = Some msg_rerun.
Proof.
  intros Hno Hinit Hsetup Hmiss.
  assert (getp (sessionData (this s1)) "noWizard" = VBool true) as Hflag.
  { pose proof (initSession_noWizard X options s s0 Hinit) as H0.
    pose proof (keeps_Ret (session_at "noWizard") _ _ _ _
                  (setupConfigArchive_keeps_session X "noWizard"
                     ltac:(discriminate) ltac:(discriminate)) Hsetup) as H1.
    unfold session_at in *. unfold getp. rewrite H1, H0, Hno. reflexivity. }
  assert (fs s1 = fs s) as Hfs.
  { rewrite (keeps_Ret fs _ _ _ _ (setupConfigArchive_keeps_fs X) Hsetup).
    exact (keeps_Ret fs _ _ _ _ (initSession_keeps_fs X options) Hinit). }
  unfold start. rewrite (bind_Ret _ _ _ _ _ Hinit), (bind_Ret _ _ _ _ _ Hsetup).
  unfold startAfterSetup. run_step.
  assert (exists s2,
            (if negb (truthy (getp (sessionData (this s1)) "noSplashScreen"))
             then forEach (splash_show X) console_log else ret tt) s1 = Ret tt s2
            /\ this s2 = this s1 /\ fs s2 = fs s1) as (s2 & E2 & Ht2 & Hf2).
  { destruct (negb _).
    - destruct (forEach_console_log (splash_show X) s1) as (s2 & E & Ht & Hf & _). eauto.
    - exists s1. auto. }
  rewrite (bind_Ret _ _ _ _ _ E2). do 2 run_step.
  cbn [this set_next_ref]. rewrite Ht2, Hflag. cbn [truthy andb].
  destruct (missingProperties (config (this s1))) as [| m ms]; [congruence |].
  cbn [length Nat.eqb negb].
  eexists. split; [reflexivity |].
  cbn [fs console set_console set_next_ref].
  split; [congruence | apply last_snoc].
Qed.

Lemma unattended_missing_property_exits_witness :
  let X := demo true demo_cert_ok in
  let s := demo_state (<["CFG_PASSWORD" := js "secret"]> demo_env) demo_disk [] in
  exists s',
    start X (Some demo_unattended) s = Exit 1 s'
    /\ fs s' = demo_disk
    /\ last (console s') = Some msg_rerun.
Proof.
  intros X s.
  destruct (unattended_missing_property_exits X (Some demo_unattended) s
              (final (initSession X (Some demo_unattended) s))
              (final (setupConfigArchive X
                        (final (initSession X (Some demo_unattended) s))))
              ltac:(vm_compute; reflexivity) ltac:(vm_compute; reflexivity)
              ltac:(vm_compute; reflexivity) ltac:(vm_compute; discriminate))
    as (s' & E & Hfs & Hlast).
  exists s'. split; [exact E |]. split; [rewrite Hfs; reflexivity | exact Hlast].
Defined.

(** ** The client key archive across runs *)

Lemma forEach_console_log_eq lines :
  forall s, forEach lines console_log s = Ret tt (set_console (fun c => c ++ lines) s).
Proof.
  induction lines as [| l lines IH]; intros s; cbn [forEach].
  - unfold ret. f_equal. destruct s. unfold set_console. simpl. by rewrite app_nil_r.
  - run_step. rewrite IH. f_equal. unfold set_console. simpl. by rewrite <- app_assoc.
Qed.

Lemma initSession_saves_no_password X options s s0 :
  initSession X options s = Ret tt s0 ->
  session_at "gatekeeper_clientkeyspassword" s0 = None.
Proof.
  intros H. run_initSession H.
  all: destruct (strict_eq (env_get s "VERSION_OVERRIDE") (VStr (js "true")));
    unfold forEach, setSession, bind, modify, ret in H; apply Ret_inj in H; subst s0;
    unfold session_at;
    cbn [this sessionData set_this set_sessionData set_rng];
    read_property; reflexivity.
Qed.

(** An unattended run whose document has nothing missing goes from
    [setupConfigArchive] to [processProps] and [writeFiles]: lines 115-144
    with the wizard skipped. *)
Lemma start_unattended X options s s0 s1 :
  truthy (getp (default ∅ options) "noWizard") = true ->
  initSession X options s = Ret tt s0 ->
  setupConfigArchive X s0 = Ret tt s1 ->
  missingProperties (config (this s1)) = [] ->
  start X options s = (processProps X ;; writeFiles X) (splashed X s1).
Proof.
  intros Hno Hinit Hsetup Hmiss.
  assert (getp (sessionData (this s1)) "noWizard" = VBool true) as Hflag.
  { pose proof (initSession_noWizard X options s s0 Hinit) as H0.
    pose proof (keeps_Ret (session_at "noWizard") _ _ _ _
                  (setupConfigArchive_keeps_session X "noWizard"
                     ltac:(discriminate) ltac:(discriminate)) Hsetup) as H1.
    unfold session_at in *. unfold getp. rewrite H1, H0, Hno. reflexivity. }
  assert ((if negb (truthy (getp (sessionData (this s1)) "noSplashScreen"))
           then forEach (splash_show X) console_log else ret tt) s1
          = Ret tt (set_console
                      (fun c => c ++ (if truthy (getp (sessionData (this s1)) "noSplashScreen")
                                      then [] else splash_show X)) s1)) as Hsplash.
  { destruct (truthy (getp (sessionData (this s1)) "noSplashScreen")); cbn [negb];
      [exact (forEach_console_log_eq [] s1) | apply forEach_console_log_eq]. }
  unfold start. rewrite (bind_Ret _ _ _ _ _ Hinit), (bind_Ret _ _ _ _ _ Hsetup).
  unfold startAfterSetup. run_step.
  rewrite (bind_Ret _ _ _ _ _ Hsplash). do 2 run_step.
  cbn [this set_next_ref set_console]. rewrite Hflag, Hmiss.
  cbn [truthy andb length Nat.eqb negb].
  do 2 run_step. reflexivity.
Qed.

Lemma strict_neq_undefined v : strict_neq VUndefined v = true <-> v <> VUndefined.
Proof. unfold strict_neq. destruct v; simpl; split; congruence. Qed.

(** C8 (as the code has it). [s_w] is the state in which the client key
    archive is about to be written, for a document that has client
    information. The existing client key archive is deleted first exactly
    when the client keys password of the document differs from the one
    saved in the session data and the file exists, and the two entries are
    then written over what the path holds: nothing after a deletion, the
    existing file otherwise. In an interactive run the saved password is
    the document's as it was before the wizard ran. In an unattended run
    [start] saves nothing: the saved password is [undefined], the
    document's password is still what [setupConfigArchive] loaded, and the
    existing archive is deleted whenever the document has a client keys
    password at all, although that password did not change. *)
Theorem stale_key_archive_deleted_iff_saved_password_differs X s_w :
  truthy (clientInformationOf (data (config (this s_w)))) = true ->
  fs s_w !! destinationPath X keyArchiveFileName <> Some Dir ->
  let p := destinationPath X keyArchiveFileName in
  let saved := getp (sessionData (this s_w)) "gatekeeper_clientkeyspassword" in
  let current := getp (data (config (this s_w))) "gatekeeper_clientkeyspassword" in
  let info := clientInformationOf (data (config (this s_w))) in
  let deleted := strict_neq saved current && bool_decide (is_Some (fs s_w !! p)) in
  let s_d := set_fs (if deleted then delete p else fun d => d)
               (set_console (fun c => c ++ [msg_create keyArchiveFileName]) s_w) in
  writeClientKeys X s_w = writeKeyArchive X info s_d
  /\ fs s_d !! p = (if deleted then None else fs s_w !! p)
  /\ (forall ref items, info = VArr ref items ->
        let first := Archive_writeEntry X (fs s_d !! p) current (js "keys.txt")
                       (VStr (array_join [10%N] items)) in
        let second := Archive_writeEntry X (wr_node first) current (js "cacert.pem")
                        (getp (data (config (this s_w))) "gatekeeper_sslcert") in
        exists s2, writeKeyArchive X info s_d = Ret tt s2 /\ fs s2 !! p = wr_node second)
  /\ (forall r missing s s_a s_b,
        interview X r missing s = Ret tt s_a ->
        processProps X s_a = Ret tt s_b ->
        writeConfigAndTemplates X s_b = Ret tt s_w ->
        saved = getp (data (config (this s))) "gatekeeper_clientkeyspassword")
  /\ (forall options s s0 s1 s_b,
        truthy (getp (default ∅ options) "noWizard") = true ->
        initSession X options s = Ret tt s0 ->
        setupConfigArchive X s0 = Ret tt s1 ->
        missingProperties (config (this s1)) = [] ->
        processProps X (splashed X s1) = Ret tt s_b ->
        writeConfigAndTemplates X s_b = Ret tt s_w ->
        start X options s
        = (writeClientKeys X ;; writeFileSync (exitStatusPath X) (js "EXIT_STATUS=0")) s_w
        /\ saved = VUndefined
        /\ current = getp (data (config (this s1))) "gatekeeper_clientkeyspassword"
        /\ (deleted = true <-> current <> VUndefined /\ is_Some (fs s_w !! p))).
Proof.
  intros Hinfo Hdir p saved current info deleted s_d.
  assert (fs s_d !! p = (if deleted then None else fs s_w !! p)) as Hfs.
  { unfold s_d. destruct deleted; simpl; [apply lookup_delete_eq | reflexivity]. }
  split; [exact (writeClientKeys_deletes_iff_saved_differs X s_w Hinfo Hdir) |].
  split; [exact Hfs |].
  split; [| split].
  - intros ref items Hitems first second. rewrite Hitems.
    destruct (writeKeyArchive_array X ref items s_d) as (s2 & E & Hnode & _).
    exists s2. split; [exact E | exact Hnode].
  - intros r missing s s_a s_b Hi Hp Hw.
    exact (saved_password_is_snapshot X r missing s s_a s_b s_w Hi Hp Hw).
  - intros options s s0 s1 s_b Hno Hinit Hsetup Hmiss Hp Hw.
    assert (saved = VUndefined) as Hsaved.
    { pose proof (initSession_saves_no_password X options s s0 Hinit) as H0.
      pose proof (keeps_Ret (session_at "gatekeeper_clientkeyspassword") _ _ _ _
                    (setupConfigArchive_keeps_session X "gatekeeper_clientkeyspassword"
                       ltac:(discriminate) ltac:(discriminate)) Hsetup) as H1.
      pose proof (keeps_Ret (session_at "gatekeeper_clientkeyspassword") _ _ _ _
                    (processProps_keeps_session X "gatekeeper_clientkeyspassword" ltac:(discriminate)) Hp) as H2.
      pose proof (keeps_Ret (session_at "gatekeeper_clientkeyspassword") _ _ _ _
                    (writeConfigAndTemplates_keeps_session X _) Hw) as H3.
      unfold saved, getp. unfold session_at in *.
      rewrite H3, H2. cbn [splashed this set_next_ref set_console]. by rewrite H1, H0. }
    split; [| split; [exact Hsaved | split]].
    + rewrite (start_unattended X options s s0 s1 Hno Hinit Hsetup Hmiss).
      rewrite (bind_Ret _ _ _ _ _ Hp). unfold writeFiles.
      by rewrite (bind_Ret _ _ _ _ _ Hw).
    + pose proof (keeps_Ret (data_at "gatekeeper_clientkeyspassword") _ _ _ _
                    (processProps_keeps_data X "gatekeeper_clientkeyspassword" ltac:(discriminate) ltac:(discriminate)
                       ltac:(discriminate) ltac:(discriminate) ltac:(discriminate)) Hp) as H2.
      assert ("gatekeeper_clientkeyspassword" ∉ pathProps) as Hnp
        by (apply (bool_decide_unpack _); vm_compute; exact I).
      pose proof (keeps_Ret (data_at "gatekeeper_clientkeyspassword") _ _ _ _
                    (writeConfigAndTemplates_keeps_data X _ Hnp) Hw) as H3.
      unfold current, getp. unfold data_at in *. by rewrite H3, H2.
    + unfold deleted. rewrite Hsaved, andb_true_iff, strict_neq_undefined.
      by rewrite bool_decide_eq_true.
Qed.

Lemma stale_key_archive_deleted_iff_saved_password_differs_witness :
  let X := demo_migrated true demo_cert_ok in
  let s := demo_state (<["CFG_PASSWORD" := js "secret"]> demo_env) demo_disk [] in
  let s1 := final (setupConfigArchive X (final (initSession X (Some demo_unattended) s))) in
  let s_w := final (writeConfigAndTemplates X (final (processProps X (splashed X s1)))) in
  let info := clientInformationOf (data (config (this s_w))) in
  getp (data (config (this s1))) "gatekeeper_clientkeyspassword" = VStr (js "clientpw")
  /\ getp (data (config (this s_w))) "gatekeeper_clientkeyspassword" = VStr (js "clientpw")
  /\ fs s_w !! js "/data/client.7z" = Some (File (js "[keys.txt]old-info"))
  /\ start X (Some demo_unattended) s
     = (writeClientKeys X ;; writeFileSync (exitStatusPath X) (js "EXIT_STATUS=0")) s_w
  /\ exists s_d,
       writeClientKeys X s_w = writeKeyArchive X info s_d
       /\ fs s_d !! js "/data/client.7z" = None.
Proof.
  intros X s s1 s_w info.
  destruct (stale_key_archive_deleted_iff_saved_password_differs X s_w
              ltac:(vm_compute; reflexivity) ltac:(vm_compute; discriminate))
    as (E & Hfs & _ & _ & Hun).
  destruct (Hun (Some demo_unattended) s
              (final (initSession X (Some demo_unattended) s)) s1
              (final (processProps X (splashed X s1)))
              ltac:(vm_compute; reflexivity) ltac:(vm_compute; reflexivity)
              ltac:(vm_compute; reflexivity) ltac:(vm_compute; reflexivity)
              ltac:(vm_compute; reflexivity) ltac:(vm_compute; reflexivity))
    as (Hstart & _ & Hcur & Hdel).
  split; [vm_compute; reflexivity |].
  split; [rewrite Hcur; vm_compute; reflexivity |].
  split; [vm_compute; reflexivity |].
  split; [exact Hstart |].
  eexists. split; [exact E |].
  rewrite (proj2 Hdel) in Hfs; [exact Hfs |].
  split; [vm_compute; discriminate | vm_compute; eauto].
Defined.

(** * More of [lib/app.js]: the validators *)

(** The class of [userRegexp], [[a-zA-Z0-9\._\-]]. *)
Definition user_char (c : N) : bool :=
  ((97 <=? c) && (c <=? 122) || (65 <=? c) && (c <=? 90) || (48 <=? c) && (c <=? 57)
   || (c =? 46) || (c =? 95) || (c =? 45))%N.


(** [/^[class]+$/.test(x)]: [x] is converted to a string, which must be one
    or more characters of the class from its start to its end. *)
Definition test_all_of (class : N -> bool) (x : value) : bool :=
  match to_string x with
  | [] => false
  | s => forallb class s
  end.

(** [userRegexp.test(user)] and [uaCommentRegexp.test(comment)] *)
Definition userRegexp_test : value -> bool := test_all_of user_char.

(** What a validator does: it returns [true] or throws an [Error] with a
    message. *)
Inductive verdict :=
| Accepted
| Rejected (message : string).

(** [usernameValidator(user)] *)
Definition usernameValidator (user : value) : verdict :=
  if negb (userRegexp_test user) then Rejected "Choose a valid username" else Accepted.


(** [notEmptyValidator(path)] *)
Definition notEmptyValidator (path : value) : verdict :=
  if negb (truthy path) then Rejected "Please enter something" else Accepted.

(** [optional(input, validator)] *)
Definition optional (input : value) (validator : value -> verdict) : verdict :=
  if strict_eq input VUndefined || strict_eq input VNull || strict_eq input (VStr [])
  then Accepted
  else validator input.

(** * Further vocabulary *)

(** How a computation ended. *)
Inductive ending := Returned | Threw | Exited | Waiting.

Definition ending_of {A} (o : outcome A) : ending :=
  match o with
  | Ret _ _ => Returned
  | Throw _ _ => Threw
  | Exit _ _ => Exited
  | Blocked _ => Waiting
  end.

(** [never k m]: from no state does [m] end in [k]. *)
Definition never {A} (k : ending) (m : M A) : Prop :=
  forall s, ending_of (m s) <> k.

(** What [setupConfigArchive] does once the password of an existing
    archive is known: the inner [try], the admin hash, the features. *)
Definition afterPassword (X : External) : M unit :=
  try_catch (loadConfigArchive X)
    (fun err : string => console_log msg_corrupt ;; process_exit (Some 1)) ;;
  s <- get ;;
  setData "adminhash" (htpasswd X (getp (sessionData (this s)) "configurationPassword")) ;;
  s <- get ;;
  checkFeatures [] (features (this s)).

(** A settled document: the recreate-keys flag is unset, the key-entries
    collection has a size that is not 0, and the certificate is not to be
    recreated (no flag, a TLS key and a certificate are there). *)
Definition settled (d : gmap string value) : Prop :=
  truthy (getp d "gatekeeper_recreatekeys") = false
  /\ (exists len, keyEntriesLength d = Some len /\ len <> VNum 0)
  /\ shouldRecreateCert d = false.

(** * Further properties *)

(** ** [trimFilter] *)

Lemma trimStart_head s c : head (trimStart s) = Some c -> is_whitespace c = false.
Proof.
  induction s as [| x s IH]; simpl; [discriminate |].
  destruct (is_whitespace x) eqn:E; [exact IH |].
  simpl. intros [= <-]. exact E.
Qed.

Lemma trimStart_fixed s :
  (forall c, head s = Some c -> is_whitespace c = false) -> trimStart s = s.
Proof.
  destruct s as [| x s]; [reflexivity |]. simpl. intros H.
  by rewrite (H x eq_refl).
Qed.

Lemma trimStart_snoc s c :
  is_whitespace c = false -> exists t, trimStart (s ++ [c]) = t ++ [c].
Proof.
  intros Hc. induction s as [| x s IH]; simpl.
  - rewrite Hc. by exists [].
  - destruct (is_whitespace x); [exact IH |]. by exists (x :: s).
Qed.

Lemma last_rev {A} (l : list A) : last (rev l) = head l.
Proof. destruct l as [| x l]; [reflexivity |]. simpl. apply last_snoc. Qed.

Lemma trimEnd_last s c : last (trimEnd s) = Some c -> is_whitespace c = false.
Proof.
  unfold trimEnd. rewrite last_rev. apply trimStart_head.
Qed.

Lemma trimEnd_keeps_head s c :
  is_whitespace c = false -> exists t, trimEnd (c :: s) = c :: t.
Proof.
  intros Hc. unfold trimEnd. simpl.
  destruct (trimStart_snoc (rev s) c Hc) as [t ->].
  rewrite rev_app_distr. simpl. eauto.
Qed.

Lemma trimEnd_fixed s :
  (forall c, last s = Some c -> is_whitespace c = false) -> trimEnd s = s.
Proof.
  intros H. unfold trimEnd. rewrite trimStart_fixed; [apply rev_involutive |].
  intros c Hc. apply H. rewrite <- (rev_involutive s) at 1. by rewrite last_rev.
Qed.

Lemma trim_head s c : head (trim s) = Some c -> is_whitespace c = false.
Proof.
  unfold trim. intros H.
  destruct (trimStart s) as [| x t] eqn:E; [discriminate H |].
  assert (is_whitespace x = false) as Hx by (apply (trimStart_head s); by rewrite E).
  destruct (trimEnd_keeps_head t x Hx) as [t' Ht]. rewrite Ht in H.
  simpl in H. by injection H as <-.
Qed.

Lemma trim_last s c : last (trim s) = Some c -> is_whitespace c = false.
Proof. unfold trim. apply trimEnd_last. Qed.

Lemma trim_idempotent s : trim (trim s) = trim s.
Proof.
  unfold trim at 1. rewrite (trimStart_fixed (trim s)) by apply trim_head.
  apply trimEnd_fixed, trim_last.
Qed.

(** X1. [trimFilter] is idempotent, and what it returns is a string that
    neither starts nor ends with a whitespace character. *)
Theorem trimFilter_idempotent_and_tight input :
  trimFilter (trimFilter input) = trimFilter input
  /\ exists t, trimFilter input = VStr t
       /\ (forall c, head t = Some c -> is_whitespace c = false)
       /\ (forall c, last t = Some c -> is_whitespace c = false).
Proof.
  unfold trimFilter. cbn [to_string]. split.
  - by rewrite trim_idempotent.
  - eexists. split; [reflexivity |]. split; [apply trim_head | apply trim_last].
Qed.

(** ** The validators *)






(** X3. Wrapping [usernameValidator] in [optional] adds exactly one accepted
    input, the empty string: [undefined] and [null] already pass the
    validator itself, because the regular expression tests the strings
    ["undefined"] and ["null"]. *)
Theorem optional_username_adds_only_empty_string input :
  (optional input usernameValidator = Accepted
   <-> input = VStr [] \/ usernameValidator input = Accepted)
  /\ usernameValidator VUndefined = Accepted
  /\ usernameValidator VNull = Accepted
  /\ usernameValidator (VStr []) <> Accepted.
Proof.
  split; [| repeat split; try reflexivity; discriminate].
  unfold optional.
  destruct input as [| | b | n | [| c t] | r l | r l]; cbn [strict_eq orb]; unfold jsstring_eqb;
    try rewrite bool_decide_eq_true_2 by reflexivity;
    try rewrite bool_decide_eq_false_2 by discriminate;
    cbn [orb]; split; try tauto; try (intros _; right; reflexivity);
    try (intros [H | H]; [discriminate H | exact H]).
Qed.

(** ** Computations that never wait, and what they leave alone *)

Definition blind_to_this {B} (f : state -> B) : Prop :=
  forall g s, f (set_this g s) = f s.

Lemma never_ret {A} k (a : A) : k <> Returned -> never k (ret a).
Proof. intros H s. simpl. congruence. Qed.

Lemma never_get k : k <> Returned -> never k get.
Proof. intros H s. simpl. congruence. Qed.

Lemma never_modify k g : k <> Returned -> never k (modify g).
Proof. intros H s. simpl. congruence. Qed.

Lemma never_throw {A} k e : k <> Threw -> never k (@throw A e).
Proof. intros H s. simpl. congruence. Qed.

Lemma never_exit {A} k c : k <> Exited -> never k (@process_exit A c).
Proof. intros H s. simpl. congruence. Qed.

Lemma never_non_null {A} k (o : option A) : k <> Returned -> k <> Threw -> never k (non_null o).
Proof. intros H1 H2 s. destruct o; simpl; congruence. Qed.

Lemma never_bind {A C} k (m : M A) (f : A -> M C) :
  never k m -> (forall a, never k (f a)) -> never k (bind m f).
Proof.
  intros Hm Hf s. unfold bind. specialize (Hm s).
  destruct (m s) as [a s' | | |]; simpl in *; try assumption. apply Hf.
Qed.

Lemma never_try_catch {A} k (m : M A) h :
  never k m -> (forall e, never k (h e)) -> never k (try_catch m h).
Proof.
  intros Hm Hh s. unfold try_catch. specialize (Hm s).
  destruct (m s) as [| e s' | |]; simpl in *; try assumption. apply Hh.
Qed.

Lemma never_forEach {A} k (l : list A) body :
  k <> Returned -> (forall x, never k (body x)) -> never k (forEach l body).
Proof.
  intros Hk H. induction l as [| x l IH]; simpl.
  - by apply never_ret.
  - apply never_bind; [apply H | intros _; apply IH].
Qed.

(** Steps that return or throw, and nothing else. *)
Lemma never_waiting_step {A} (m : M A) :
  (forall s, match m s with Ret _ _ | Throw _ _ => True | _ => False end) ->
  never Waiting m.
Proof. intros H s. specialize (H s). destruct (m s); simpl; congruence || contradiction. Qed.

Lemma never_exited_step {A} (m : M A) :
  (forall s, match m s with Ret _ _ | Throw _ _ => True | _ => False end) ->
  never Exited m.
Proof. intros H s. specialize (H s). destruct (m s); simpl; congruence || contradiction. Qed.

Lemma disk_step_writeFileSync p c s :
  match writeFileSync p c s with Ret _ _ | Throw _ _ => True | _ => False end.
Proof.
  unfold writeFileSync. destruct (dir_error _ _); [done |]. by destruct (fs s !! p) as [[|]|].
Qed.

Lemma disk_step_mkdirSync p s :
  match mkdirSync p s with Ret _ _ | Throw _ _ => True | _ => False end.
Proof. unfold mkdirSync. by destruct (nearest _ _ _) as [[|]|]. Qed.

Lemma disk_step_unlinkSync p s :
  match unlinkSync p s with Ret _ _ | Throw _ _ => True | _ => False end.
Proof. unfold unlinkSync. by destruct (fs s !! p) as [[|]|]. Qed.

(** One step of a proof that a method never waits for the operator. *)
Ltac never_step :=
  lazymatch goal with
  | |- never _ (bind _ _) => apply never_bind; [| intros ?]
  | |- never _ (try_catch _ _) => apply never_try_catch; [| intros ?]
  | |- never _ (ret _) => apply never_ret; discriminate
  | |- never _ get => apply never_get; discriminate
  | |- never _ (modify _) => apply never_modify; discriminate
  | |- never _ (throw _) => apply never_throw; discriminate
  | |- never _ (process_exit _) => apply never_exit; discriminate
  | |- never _ (non_null _) => apply never_non_null; discriminate
  | |- never _ (forEach _ _) => apply never_forEach; [discriminate | intros ?]
  | |- never _ (console_log _) => apply never_modify; discriminate
  | |- never _ (setSession _ _) => apply never_modify; discriminate
  | |- never _ (setData _ _) => apply never_modify; discriminate
  | |- never _ (deleteData _) => apply never_modify; discriminate
  | |- never _ (existsSync _) => intros ?; simpl; discriminate
  | |- never _ alloc => intros ?; simpl; discriminate
  | |- never _ draw => intros ?; simpl; discriminate
  | |- never _ (serialize _ _ _) => intros ?; simpl; discriminate
  | |- never _ (writeEntry _ _ _ _ _) => intros ?; simpl; discriminate
  | |- never Waiting (writeFileSync _ _) =>
      apply never_waiting_step; intros ?; apply disk_step_writeFileSync
  | |- never Waiting (mkdirSync _) =>
      apply never_waiting_step; intros ?; apply disk_step_mkdirSync
  | |- never Waiting (unlinkSync _) =>
      apply never_waiting_step; intros ?; apply disk_step_unlinkSync
  | |- never _ (if ?c then _ else _) => destruct c
  | |- never _ (match ?x with _ => _ end) => destruct x
  end.

Ltac never_auto := repeat never_step.

Lemma never_waiting_createKeys X ids : forall a b, never Waiting (createKeys X ids a b).
Proof.
  induction ids as [| [i g] rest IH]; intros a b; cbn [createKeys].
  - never_auto.
  - unfold createRandomKey. never_auto. apply IH.
Qed.

Lemma never_waiting_processProps X : never Waiting (processProps X).
Proof.
  unfold processProps, processKeys, shouldRecreateKeys, processCert, createCert.
  never_auto. apply never_waiting_createKeys.
Qed.

Lemma never_waiting_writeFiles X : never Waiting (writeFiles X).
Proof.
  unfold writeFiles, writeConfigAndTemplates, writeConfigArchive, writeTemplates,
    writeTemplate, writeClientKeys, removeStaleKeyArchive, writeKeyArchive.
  never_auto.
Qed.

Lemma never_waiting_checkFeatures todo : forall seen, never Waiting (checkFeatures seen todo).
Proof.
  induction todo as [| c rest IH]; intros seen; cbn [checkFeatures].
  - never_auto.
  - unfold isChecked. never_auto; apply IH.
Qed.

Lemma never_waiting_initSession X options : never Waiting (initSession X options).
Proof. unfold initSession. never_auto. Qed.

Lemma keeps_createKeys_blind {B} X (f : state -> B) ids a b :
  blind_to_rng f -> keeps f (createKeys X ids a b).
Proof. intros H. by apply keeps_createKeys. Qed.

(** What neither [processProps] nor [writeFiles] reads or changes: any
    observation of the state that looks at none of [this], the disk, the
    console, the random draws and the references. *)
Lemma processProps_keeps_outside {B} X (f : state -> B) :
  blind_to_this f -> blind_to_rng f -> blind_to_refs f -> blind_to_console f ->
  keeps f (processProps X).
Proof.
  intros Ht Hr Hn Hc.
  unfold processProps, processKeys, shouldRecreateKeys, processCert, createCert,
    setData, deleteData, setSession.
  keeps_auto;
    first [ by apply keeps_createKeys
          | by apply keeps_alloc
          | by apply keeps_console_log
          | apply keeps_modify; intros s0; apply Ht ].
Qed.

Lemma writeFiles_keeps_outside {B} X (f : state -> B) :
  blind_to_this f -> blind_to_fs f -> blind_to_console f ->
  keeps f (writeFiles X).
Proof.
  intros Ht Hf Hc.
  unfold writeFiles, writeConfigAndTemplates, writeConfigArchive, writeTemplates,
    writeTemplate, writeClientKeys, removeStaleKeyArchive, writeKeyArchive.
  keeps_auto;
    first [ by apply keeps_console_log
          | by apply keeps_serialize
          | by apply keeps_writeEntry
          | by apply keeps_writeFileSync
          | by apply keeps_mkdirSync
          | by apply keeps_unlinkSync
          | apply keeps_modify; intros s0; apply Ht ].
Qed.

(** ** More on [setupConfigArchive] *)

(** What follows the password in [setupConfigArchive]: lines 214-218. *)
Lemma setupConfigArchive_Ret X s s' :
  setupConfigArchive X s = Ret tt s' ->
  exists s1 s2,
    features (this s1) = features (this s)
    /\ s2 = set_this (set_data (insert "adminhash"
              (htpasswd X (getp (sessionData (this s1)) "configurationPassword")))) s1
    /\ checkFeatures [] (features (this s1)) s2 = Ret tt s'.
Proof.
  unfold setupConfigArchive. intros H.
  do 2 (erewrite bind_Ret in H by reflexivity).
  unfold bind at 1 in H.
  match type of H with
  | match ?m ?s0 with _ => _ end = _ =>
      assert (keeps (fun s => features (this s)) m) as Hk;
      [| destruct (m s0) as [[] s1 | | |] eqn:E; try discriminate H ]
  end.
  { unfold choosePassword, resolvePassword, loadConfigArchive, deserialize, setSession.
    keeps_auto;
      first [ apply keeps_newPasswordLoop; intros ? ?; reflexivity
            | apply keeps_passwordLoop; intros ? ?; reflexivity
            | apply keeps_modify; intros; reflexivity ]. }
  do 3 (erewrite bind_Ret in H by reflexivity).
  exists s1. eexists. split; [| split; [reflexivity | exact H]].
  exact (keeps_Ret _ _ _ _ _ Hk E).
Qed.

(** X4. Whenever [setupConfigArchive] returns, whichever way the password
    was obtained (chosen, typed, or from the environment), the document's
    admin hash is the hash of the configuration password of the session. *)
Theorem adminhash_is_hash_of_session_password X s s' :
  setupConfigArchive X s = Ret tt s' ->
  data_at "adminhash" s'
  = Some (htpasswd X (getp (sessionData (this s')) "configurationPassword")).
Proof.
  intros H. destruct (setupConfigArchive_Ret X s s' H) as (s1 & s2 & _ & -> & E).
  pose proof (keeps_Ret (fun s => (data (config (this s)), sessionData (this s))) _ _ _ _
                (keeps_checkFeatures (fun s => (data (config (this s)), sessionData (this s)))
                   _ ltac:(intros ? ?; reflexivity) []) E) as Hk.
  cbn [this config data sessionData set_this set_data set_config] in Hk.
  injection Hk as Hd Hs. unfold data_at. rewrite Hd, Hs. apply lookup_insert_eq.
Qed.

Lemma adminhash_is_hash_of_session_password_witness :
  let X := demo true demo_cert_ok in
  let s := demo_state (<["CFG_PASSWORD" := js "secret"]> demo_env) demo_disk [] in
  data_at "adminhash" (final (setupConfigArchive X s)) = Some (VStr (js "hash:secret")).
Proof.
  intros X s.
  rewrite (adminhash_is_hash_of_session_password X s (final (setupConfigArchive X s))
             ltac:(vm_compute; reflexivity)).
  vm_compute. reflexivity.
Defined.

(** The mark [isChecked] gives a feature when the document's [features] is
    the array [items]. *)
Definition markFeature (items : list value) (c : Feature) : Feature :=
  {| f_value := f_value c; f_checked := VBool (existsb (strict_eq (f_value c)) items) |}.

Lemma checkFeatures_array r items todo :
  forall seen s s',
    getp (data (config (this s))) "features" = VArr r items ->
    features (this s) = seen ++ todo ->
    checkFeatures seen todo s = Ret tt s' ->
    features (this s') = seen ++ map (markFeature items) todo.
Proof.
  induction todo as [| c rest IH]; intros seen s s' Hd Hf H; cbn [checkFeatures] in H.
  - injection H as <-. by rewrite Hf.
  - assert (isChecked "features" (f_value c) s
            = Ret (VBool (existsb (strict_eq (f_value c)) items)) s) as E.
    { unfold isChecked, bind, get. rewrite Hd. reflexivity. }
    rewrite (bind_Ret _ _ _ _ _ E) in H. erewrite bind_Ret in H by reflexivity.
    apply IH in H.
    + rewrite H. cbn [map]. by rewrite <- app_assoc.
    + exact Hd.
    + cbn [this features set_this set_features]. by rewrite <- app_assoc.
Qed.

(** X5. When [setupConfigArchive] returns and the document's [features] is
    an array, the features of the application are those it had, in the
    same order, each marked as checked exactly when its value is an element
    ([===]) of that array. *)
Theorem features_checked_iff_in_document X s s' r items :
  setupConfigArchive X s = Ret tt s' ->
  getp (data (config (this s'))) "features" = VArr r items ->
  features (this s') = map (markFeature items) (features (this s))
  /\ map f_value (features (this s')) = map f_value (features (this s)).
Proof.
  intros H Hd. destruct (setupConfigArchive_Ret X s s' H) as (s1 & s2 & Hf & -> & E).
  assert (features (this s') = map (markFeature items) (features (this s))) as Hm.
  { rewrite <- Hf.
    refine (checkFeatures_array r items _ [] _ s' _ eq_refl E).
    rewrite <- Hd. symmetry.
    apply (f_equal (fun d => getp d "features")).
    exact (keeps_Ret (fun s => data (config (this s))) _ _ _ _
             (keeps_checkFeatures (fun s => data (config (this s)))
                _ ltac:(intros ? ?; reflexivity) []) E). }
  split; [exact Hm |]. rewrite Hm, map_map. reflexivity.
Qed.

Lemma existsSync_false p s : fs s !! p = None -> existsSync p s = Ret false s.
Proof.
  intros H. unfold existsSync. rewrite H.
  by rewrite bool_decide_eq_false_2 by (intros [? ?]; discriminate).
Qed.

Lemma resolvePassword_env s (pw : jsstring) :
  env s !! "CFG_PASSWORD" = Some pw -> pw <> [] ->
  resolvePassword s
  = Ret tt (set_this (set_sessionData (insert "configurationPassword" (VStr pw))) s).
Proof.
  intros He Hne. unfold resolvePassword. rewrite (bind_Ret get _ s s s eq_refl).
  cbv beta. unfold env_get. rewrite He.
  destruct pw; [congruence | reflexivity].
Qed.

Lemma setupConfigArchive_with_cfg_password X s (pw : jsstring) :
  is_Some (fs s !! destinationPath X configArchiveFileName) ->
  env s !! "CFG_PASSWORD" = Some pw ->
  pw <> [] ->
  setupConfigArchive X s
  = afterPassword X
      (set_this (set_sessionData (insert "configurationPassword" (VStr pw)))
         (set_this (set_config (Config_new X)) s)).
Proof.
  intros Hex He Hne.
  unfold setupConfigArchive. run_step.
  erewrite bind_Ret; [| apply existsSync_true; exact Hex].
  cbn [negb]. unfold afterPassword. unfold bind at 1. unfold try_catch at 1.
  rewrite (bind_Ret _ _ _ _ _
             (resolvePassword_env (set_this (set_config (Config_new X)) s) pw He Hne)).
  reflexivity.
Qed.

Lemma never_waiting_afterPassword X : never Waiting (afterPassword X).
Proof.
  unfold afterPassword, loadConfigArchive, deserialize. never_auto.
  apply never_waiting_checkFeatures.
Qed.

Lemma afterPassword_keeps_password X :
  keeps (fun s => (keyboard s, session_at "configurationPassword" s)) (afterPassword X).
Proof.
  unfold afterPassword, loadConfigArchive, deserialize, setSession, setData.
  keeps_auto;
    first [ apply keeps_checkFeatures; intros ? ?; reflexivity
          | apply keeps_modify; intros s2; try reflexivity ].
  unfold session_at. simpl. f_equal. apply lookup_insert_ne. discriminate.
Qed.

(** X6. With an existing archive and a non-empty [CFG_PASSWORD],
    [setupConfigArchive] never waits for the operator and reads none of the
    answers; however it ends, the configuration password of the session is
    the variable's value as it is: it is not trimmed. *)
Theorem cfg_password_used_verbatim_without_prompt X s (pw : jsstring) :
  is_Some (fs s !! destinationPath X configArchiveFileName) ->
  env s !! "CFG_PASSWORD" = Some pw ->
  pw <> [] ->
  ending_of (setupConfigArchive X s) <> Waiting
  /\ keyboard (final (setupConfigArchive X s)) = keyboard s
  /\ session_at "configurationPassword" (final (setupConfigArchive X s)) = Some (VStr pw).
Proof.
  intros Hex He Hne.
  rewrite (setupConfigArchive_with_cfg_password X s pw Hex He Hne).
  split; [apply never_waiting_afterPassword |].
  pose proof (afterPassword_keeps_password X
                (set_this (set_sessionData (insert "configurationPassword" (VStr pw)))
                   (set_this (set_config (Config_new X)) s))) as Hkeeps.
  injection Hkeeps as Hk Hs.
  split; [exact Hk |]. rewrite Hs. unfold session_at. simpl. apply lookup_insert_eq.
Qed.

Lemma cfg_password_used_verbatim_without_prompt_witness :
  let X := demo true demo_cert_ok in
  let s := demo_state (<["CFG_PASSWORD" := js " secret "]> demo_env) demo_disk
             [VStr (js "unread")] in
  keyboard (final (setupConfigArchive X s)) = [VStr (js "unread")]
  /\ session_at "configurationPassword" (final (setupConfigArchive X s))
       = Some (VStr (js " secret ")).
Proof.
  intros X s.
  destruct (cfg_password_used_verbatim_without_prompt X s (js " secret ")
              ltac:(vm_compute; eauto) ltac:(vm_compute; reflexivity) ltac:(discriminate))
    as (_ & Hk & Hs).
  split; [exact Hk | exact Hs].
Defined.

(** X7. Without an archive, [CFG_PASSWORD] is not consulted: whatever the
    environment holds, a run whose operator gives no answer waits at the
    first password question, the new configuration object its only
    effect. *)
Theorem new_archive_waits_for_operator X s :
  fs s !! destinationPath X configArchiveFileName = None ->
  keyboard s = [] ->
  setupConfigArchive X s = Blocked (set_this (set_config (Config_new X)) s).
Proof.
  intros Hfs Hkb. unfold setupConfigArchive. run_step.
  set (s0 := set_this (set_config (Config_new X)) s).
  erewrite bind_Ret; [| apply existsSync_false; exact Hfs].
  cbn [negb]. unfold bind at 1.
  assert (prompt newPasswordQuestions s0 = Blocked s0) as Hp.
  { unfold prompt, newPasswordQuestions. cbn [inquirer_prompt].
    unfold bind at 1. unfold ask at 1.
    change (keyboard s0) with (keyboard s). by rewrite Hkb. }
  assert (choosePassword s0 = Blocked s0) as ->; [| reflexivity].
  unfold choosePassword. rewrite (bind_Ret get _ s0 s0 s0 eq_refl). cbv beta.
  change (keyboard s0) with (keyboard s). rewrite Hkb.
  cbn [length newPasswordLoop].
  change (askAgain ∅) with true. change (mismatch ∅) with false. cbv iota.
  unfold bind at 1. rewrite (bind_Ret (ret tt) _ s0 tt s0 eq_refl).
  unfold bind at 1. by rewrite Hp.
Qed.

Lemma new_archive_waits_for_operator_witness :
  let X := demo true demo_cert_ok in
  let s := demo_state (<["CFG_PASSWORD" := js "secret"]> demo_env) ∅ [] in
  ending_of (setupConfigArchive X s) = Waiting.
Proof.
  intros X s.
  rewrite (new_archive_waits_for_operator X s ltac:(vm_compute; reflexivity) eq_refl).
  reflexivity.
Defined.

(** The installation [X] with another [new Config()]. *)
Definition with_Config_new (c : Config) (X : External) : External :=
  {| path_join := path_join X; path_dirname := path_dirname X; dirname := dirname X;
     features_json := features_json X; help_json := help_json X; prompters := prompters X;
     name_generate := name_generate X; random_color := random_color X;
     splash_show := splash_show X; Config_new := c;
     Config_deserialize := Config_deserialize X; Config_serialize := Config_serialize X;
     htpasswd := htpasswd X; ApiKey_randomiseKey := ApiKey_randomiseKey X;
     ApiKey_getConfigEntry := ApiKey_getConfigEntry X;
     ApiKey_getClientInformation := ApiKey_getClientInformation X;
     Cert_cns := Cert_cns X; Cert_create := Cert_create X;
     Archive_writeEntry := Archive_writeEntry X; ejs_renderFile := ejs_renderFile X |}.

Lemma features_checked_iff_in_document_witness :
  let X := with_Config_new
             {| data := {[ "features" := VArr 5 [VStr (js "tor"); VStr (js "lightning")] ]};
                validateErrors := None |}
             (demo true demo_cert_ok) in
  let s := set_this (set_features [ {| f_value := VStr (js "tor"); f_checked := VUndefined |};
                                    {| f_value := VStr (js "otsclient");
                                       f_checked := VUndefined |} ])
             (demo_state demo_env ∅ [VStr (js "pw"); VStr (js "pw")]) in
  features (this (final (setupConfigArchive X s)))
  = [ {| f_value := VStr (js "tor"); f_checked := VBool true |};
      {| f_value := VStr (js "otsclient"); f_checked := VBool false |} ].
Proof.
  intros X s.
  destruct (features_checked_iff_in_document X s (final (setupConfigArchive X s)) 5%N
              [VStr (js "tor"); VStr (js "lightning")]
              ltac:(vm_compute; reflexivity) ltac:(vm_compute; reflexivity)) as [H _].
  rewrite H. vm_compute. reflexivity.
Defined.

Lemma prompt_password x k s :
  keyboard s = x :: k ->
  prompt [passwordQuestion "password" "Enter your configuration password?"] s
  = Ret (<["password" := trimFilter x]> ∅) (set_keyboard k s).
Proof.
  intros H. unfold prompt, inquirer_prompt, bind, ask.
  rewrite H. cbn [keyboard set_keyboard q_filter q_name passwordQuestion ret fst snd].
  reflexivity.
Qed.

Lemma getp_password x :
  getp (<["password" := trimFilter x]> ∅) "password" = VStr (trim (to_string x)).
Proof. unfold getp. by rewrite lookup_insert_eq. Qed.

Lemma passwordLoop_accepts blanks :
  forall fuel r s a rest,
    (length blanks + 2 <= fuel)%nat ->
    truthy (getp r "password") = false ->
    Forall (fun b => trim (to_string b) = []) blanks ->
    trim (to_string a) <> [] ->
    keyboard s = blanks ++ a :: rest ->
    passwordLoop fuel r s
    = Ret (<["password" := trimFilter a]> ∅) (set_keyboard rest s).
Proof.
  induction blanks as [| b blanks IH]; intros fuel r s a rest Hfuel Hr Hb Ha Hkb.
  - destruct fuel as [| [| n]]; simpl in Hfuel; try lia.
    cbn [passwordLoop]. rewrite Hr. cbn [negb].
    rewrite (bind_Ret _ _ _ _ _ (prompt_password a rest s Hkb)).
    rewrite getp_password, (proj2 (truthy_VStr _) Ha). reflexivity.
  - destruct fuel as [| n]; simpl in Hfuel; try lia.
    cbn [passwordLoop]. rewrite Hr. cbn [negb].
    rewrite (bind_Ret _ _ _ _ _ (prompt_password b (blanks ++ a :: rest) s Hkb)).
    inversion Hb as [| ? ? Hb1 Hb2]; subst.
    rewrite (IH n _ (set_keyboard (blanks ++ a :: rest) s) a rest); try assumption;
      try reflexivity; try lia.
    rewrite getp_password, Hb1. reflexivity.
Qed.

(** X8. With an existing archive and no [CFG_PASSWORD], the operator is
    asked for the password until an answer is not empty once trimmed:
    blank answers are passed over without a word, and the first other
    answer, trimmed, becomes the configuration password. Later answers
    are left unread. *)
Theorem archive_password_asked_until_not_blank s blanks a rest :
  truthy (env_get s "CFG_PASSWORD") = false ->
  keyboard s = blanks ++ a :: rest ->
  Forall (fun b => trim (to_string b) = []) blanks ->
  trim (to_string a) <> [] ->
  resolvePassword s
  = Ret tt (set_this (set_sessionData
                        (insert "configurationPassword" (VStr (trim (to_string a)))))
              (set_keyboard rest s)).
Proof.
  intros He Hkb Hb Ha. unfold resolvePassword.
  rewrite (bind_Ret get _ s s s eq_refl). cbv beta. rewrite He.
  erewrite bind_Ret.
  2: { apply (passwordLoop_accepts blanks); try eassumption; try reflexivity.
       rewrite Hkb, length_app. simpl. lia. }
  rewrite getp_password. reflexivity.
Qed.

Lemma archive_password_asked_until_not_blank_witness :
  let s := demo_state demo_env demo_disk
             [VStr []; VStr (js "   "); VStr (js " secret "); VStr (js "later")] in
  session_at "configurationPassword" (final (resolvePassword s)) = Some (VStr (js "secret"))
  /\ keyboard (final (resolvePassword s)) = [VStr (js "later")]
  /\ console (final (resolvePassword s)) = [].
Proof.
  intros s.
  rewrite (archive_password_asked_until_not_blank s [VStr []; VStr (js "   ")]
             (VStr (js " secret ")) [VStr (js "later")]
             ltac:(vm_compute; reflexivity) eq_refl
             ltac:(repeat constructor) ltac:(vm_compute; discriminate)).
  repeat split; vm_compute; reflexivity.
Defined.

(** X9. When the archive is loaded and its document has a client keys
    password but no property [gatekeeper_clientkeyspassword_c], that
    password is what [getDefault] then gives for
    [gatekeeper_clientkeyspassword_c]: it was copied to the session data. *)
Theorem loaded_client_password_is_default X s c v :
  Config_deserialize X (fs s !! destinationPath X configArchiveFileName)
    (getp (sessionData (this s)) "configurationPassword") = inr c ->
  data c !! "gatekeeper_clientkeyspassword" = Some v ->
  data c !! "gatekeeper_clientkeyspassword_c" = None ->
  exists s',
    loadConfigArchive X s = Ret tt s'
    /\ config (this s') = c
    /\ getDefault (this s') "gatekeeper_clientkeyspassword_c" = v.
Proof.
  intros Hd Hv Hc.
  unfold loadConfigArchive, try_catch, deserialize.
  rewrite (bind_Ret get _ s s s eq_refl). cbv beta.
  unfold bind at 1. unfold bind at 1. unfold get at 1. rewrite Hd.
  unfold modify at 1. unfold bind at 1. unfold get at 1.
  cbn [this config set_this set_config].
  unfold hasOwnProperty at 1. rewrite Hv.
  rewrite bool_decide_eq_true_2 by eauto.
  eexists. split; [reflexivity |]. split; [reflexivity |].
  unfold getDefault, hasOwnProperty.
  cbn [this config sessionData set_this set_config set_sessionData].
  rewrite Hc. rewrite bool_decide_eq_false_2 by (intros [? ?]; discriminate).
  rewrite lookup_insert_eq. rewrite bool_decide_eq_true_2 by eauto.
  unfold getp. rewrite lookup_insert_eq, Hv. reflexivity.
Qed.

Lemma loaded_client_password_is_default_witness :
  let X := demo true demo_cert_ok in
  let s := set_this (set_sessionData (insert "configurationPassword" (VStr (js "secret"))))
             (demo_state demo_env demo_disk []) in
  exists s',
    loadConfigArchive X s = Ret tt s'
    /\ getDefault (this s') "gatekeeper_clientkeyspassword_c" = VStr (js "clientpw").
Proof.
  intros X s.
  destruct (loaded_client_password_is_default X s demo_config (VStr (js "clientpw"))
              ltac:(vm_compute; reflexivity) ltac:(vm_compute; reflexivity)
              ltac:(vm_compute; reflexivity)) as (s' & E & _ & H).
  exists s'. split; assumption.
Defined.

(** ** More on [processProps] *)




(** X11. The recreate-keys flag is one-shot: when the keys step regenerates
    the keys, it removes the flag from the document and stores four key
    entries, so that on the state it ends in, regeneration is not
    triggered again. *)
Theorem recreatekeys_flag_consumed X s :
  shouldRecreateKeys (data (config (this s))) s = Ret true s ->
  exists s',
    processKeys X s = Ret tt s'
    /\ data_at "gatekeeper_recreatekeys" s' = None
    /\ shouldRecreateKeys (data (config (this s'))) s' = Ret false s'.
Proof.
  intros H. unfold processKeys.
  rewrite (bind_Ret get _ s s s eq_refl).
  rewrite (bind_Ret _ _ _ _ _ H).
  do 3 run_step.
  erewrite bind_Ret; [| apply createKeys_keyIds].
  do 1 run_step.
  eexists. split; [reflexivity |].
  unfold data_at, shouldRecreateKeys, getp.
  cbn [this config data set_this set_data set_config set_next_ref set_rng].
  rewrite !lookup_insert_ne by discriminate. rewrite lookup_delete_eq.
  split; [reflexivity |].
  rewrite lookup_insert_eq. reflexivity.
Qed.

Lemma recreatekeys_flag_consumed_witness :
  let X := demo true demo_cert_ok in
  let s := demo_loaded {[ "gatekeeper_recreatekeys" := VBool true ]} [] in
  exists s',
    processKeys X s = Ret tt s'
    /\ processKeys X s' = Ret tt s'.
Proof.
  intros X s.
  destruct (recreatekeys_flag_consumed X s ltac:(vm_compute; reflexivity))
    as (s' & E & _ & H).
  exists s'. split; [exact E |].
  unfold processKeys. rewrite (bind_Ret get _ s' s' s' eq_refl).
  rewrite (bind_Ret _ _ _ _ _ H). reflexivity.
Defined.

(** X12. Whatever the hierarchy, the loop that creates the keys returns
    exactly when every identifier and every group list is not empty; it
    then gives one record per identifier, in order, each with the next
    random draw, and counts one draw per record. At an identifier that is
    empty or has no group it throws a TypeError. *)
Theorem createKeys_one_record_per_identifier X ids s :
  (Forall (fun ig : jsstring * list jsstring => ig.1 <> [] /\ ig.2 <> []) ids ->
   createKeys X ids [] [] s
   = Ret (map (ApiKey_getConfigEntry X) (imap (keyRecord X (rng s)) ids),
          map (ApiKey_getClientInformation X) (imap (keyRecord X (rng s)) ids))
         (set_rng (length ids + rng s)%nat s))
  /\ (Exists (fun ig : jsstring * list jsstring => ig.1 = [] \/ ig.2 = []) ids ->
      exists s', createKeys X ids [] [] s = Throw "TypeError" s').
Proof.
  split.
  - intros Hall.
    enough (forall a b s,
              createKeys X ids a b s
              = Ret (a ++ map (ApiKey_getConfigEntry X) (imap (keyRecord X (rng s)) ids),
                     b ++ map (ApiKey_getClientInformation X) (imap (keyRecord X (rng s)) ids))
                    (set_rng (length ids + rng s)%nat s)) as G by exact (G [] [] s).
    clear s. induction Hall as [| [i g] rest [Hi Hg] _ IH]; intros a b s.
    + cbn [createKeys imap map length]. rewrite !app_nil_r. by destruct s.
    + cbn [createKeys]. cbn [fst snd] in Hi, Hg.
      assert (createRandomKey X i g s
              = Ret (Some {| id := i; groups := g; key := ApiKey_randomiseKey X (rng s) |})
                    (set_rng (S (rng s)) s)) as E.
      { unfold createRandomKey.
        rewrite (proj2 (truthy_VStr i) Hi). destruct g; [congruence | reflexivity]. }
      rewrite (bind_Ret _ _ _ _ _ E). run_step. rewrite IH.
      cbn [rng set_rng imap map length].
      replace (imap (keyRecord X (rng s) ∘ S) rest) with (imap (keyRecord X (S (rng s))) rest).
      2: { apply imap_ext. intros j x _. unfold keyRecord. simpl. f_equal. f_equal. lia. }
      rewrite <- !app_assoc. cbn [app].
      replace (length rest + S (rng s))%nat with (S (length rest + rng s)) by lia.
      reflexivity.
  - intros Hex.
    enough (forall a b s, exists s', createKeys X ids a b s = Throw "TypeError" s') as G
      by exact (G [] [] s).
    clear s. induction ids as [| [i g] rest IH]; intros a b s.
    + inversion Hex.
    + cbn [createKeys]. unfold createRandomKey.
      destruct (negb (truthy (VStr i)) || (length g =? 0)%nat) eqn:Hbad.
      * eexists. reflexivity.
      * apply orb_false_iff in Hbad as [Hi Hg].
        apply negb_false_iff, truthy_VStr in Hi.
        inversion Hex as [? ? [Hx | Hx] | ? ? Hrest]; subst; cbn [fst snd] in *.
        -- congruence.
        -- subst g. discriminate Hg.
        -- do 2 run_step. apply IH. exact Hrest.
Qed.

Lemma createCert_code_zero X s result :
  Cert_create X (getp (sessionData (this s)) "cns") = inr result ->
  strict_eq (code result) (VNum 0) = true ->
  createCert X s
  = match cert_key result, cert_cert result with
    | Some k, Some c =>
        Ret tt (set_this (set_data (insert "gatekeeper_sslcert" (VStr c)))
                  (set_this (set_data (insert "gatekeeper_sslkey" (VStr k))) s))
    | Some k, None =>
        Ret tt (set_console (fun l => l ++ [msg_cert_not_created])
                  (set_this (set_data (insert "gatekeeper_sslkey" (VStr k))) s))
    | None, _ => Ret tt (set_console (fun l => l ++ [msg_cert_not_created]) s)
    end.
Proof.
  intros Hc H0. unfold createCert, try_catch.
  rewrite (bind_Ret get _ s s s eq_refl). cbv beta. rewrite Hc, H0.
  destruct (cert_key result), (cert_cert result); reflexivity.
Qed.

Lemma certAttemptState_cns X s s0 :
  processKeys X s = Ret tt s0 ->
  getp (sessionData (this (certAttemptState X s0))) "cns"
  = Cert_cns X (getp (data (config (this s))) "gatekeeper_cns").
Proof.
  intros Hk. unfold certAttemptState.
  cbn [this sessionData set_console set_this set_data set_sessionData set_config config].
  unfold getp at 1. rewrite lookup_insert_eq. cbn [from_option]. unfold Datatypes.id.
  f_equal. apply getp_data_at.
  exact (keeps_Ret (data_at "gatekeeper_cns") _ _ _ _
           (processKeys_keeps_data X "gatekeeper_cns" ltac:(discriminate) ltac:(discriminate))
           Hk).
Qed.

(** X13. When the certificate generation that [processProps] attempts
    resolves with code 0, a key and a certificate, both replace what the
    document had, the recreate-cert flag is gone, and the console shows the
    announcement only. *)
Theorem cert_success_stores_key_and_cert X s s0 result k c :
  processKeys X s = Ret tt s0 ->
  shouldRecreateCert (data (config (this s))) = true ->
  Cert_create X (Cert_cns X (getp (data (config (this s))) "gatekeeper_cns")) = inr result ->
  strict_eq (code result) (VNum 0) = true ->
  cert_key result = Some k ->
  cert_cert result = Some c ->
  exists s',
    processProps X s = Ret tt s'
    /\ data_at "gatekeeper_sslkey" s' = Some (VStr k)
    /\ data_at "gatekeeper_sslcert" s' = Some (VStr c)
    /\ data_at "gatekeeper_recreatecert" s' = None
    /\ console s' = console s0 ++ [msg_generating_cert].
Proof.
  intros Hk Htrig Hc H0 Hkey Hcert.
  rewrite (processProps_attempt X s s0 Hk Htrig).
  rewrite (createCert_code_zero X _ result);
    [| by rewrite (certAttemptState_cns X s s0 Hk) | exact H0].
  rewrite Hkey, Hcert. eexists. split; [reflexivity |].
  unfold data_at, certAttemptState.
  cbn [this config data console set_console set_this set_data set_config set_sessionData].
  rewrite lookup_insert_eq.
  rewrite lookup_insert_ne by discriminate. rewrite lookup_insert_eq.
  rewrite !lookup_insert_ne by discriminate. rewrite lookup_delete_eq.
  repeat split.
Qed.

Lemma cert_success_stores_key_and_cert_witness :
  let X := demo true demo_cert_ok in
  let s := demo_loaded {[ "gatekeeper_recreatecert" := VBool true ]} [] in
  exists s',
    processProps X s = Ret tt s'
    /\ data_at "gatekeeper_sslkey" s' = Some (VStr (js "new-key"))
    /\ data_at "gatekeeper_sslcert" s' = Some (VStr (js "new-cert")).
Proof.
  intros X s.
  destruct (cert_success_stores_key_and_cert X s s
              {| code := VNum 0; cert_key := Some (js "new-key");
                 cert_cert := Some (js "new-cert") |} (js "new-key") (js "new-cert")
              ltac:(vm_compute; reflexivity) ltac:(vm_compute; reflexivity)
              ltac:(vm_compute; reflexivity) eq_refl eq_refl eq_refl)
    as (s' & E & H1 & H2 & _).
  exists s'. repeat split; assumption.
Defined.

(** X14. When the generation resolves with code 0 and a key but no
    certificate, the [catch] logs the failure after the key was stored:
    the document ends with the new key beside the certificate it had. *)
Theorem cert_without_certificate_leaves_new_key_with_old_cert X s s0 result k :
  processKeys X s = Ret tt s0 ->
  shouldRecreateCert (data (config (this s))) = true ->
  Cert_create X (Cert_cns X (getp (data (config (this s))) "gatekeeper_cns")) = inr result ->
  strict_eq (code result) (VNum 0) = true ->
  cert_key result = Some k ->
  cert_cert result = None ->
  exists s',
    processProps X s = Ret tt s'
    /\ data_at "gatekeeper_sslkey" s' = Some (VStr k)
    /\ data_at "gatekeeper_sslcert" s' = data_at "gatekeeper_sslcert" s
    /\ console s' = console s0 ++ [msg_generating_cert; msg_cert_not_created].
Proof.
  intros Hk Htrig Hc H0 Hkey Hcert.
  assert (data_at "gatekeeper_sslcert" s0 = data_at "gatekeeper_sslcert" s) as Hold
    by exact (keeps_Ret (data_at "gatekeeper_sslcert") _ _ _ _
                (processKeys_keeps_data X "gatekeeper_sslcert"
                   ltac:(discriminate) ltac:(discriminate)) Hk).
  rewrite (processProps_attempt X s s0 Hk Htrig).
  rewrite (createCert_code_zero X _ result);
    [| by rewrite (certAttemptState_cns X s s0 Hk) | exact H0].
  rewrite Hkey, Hcert. eexists. split; [reflexivity |].
  unfold data_at, certAttemptState in *.
  cbn [this config data console set_console set_this set_data set_config set_sessionData].
  rewrite lookup_insert_eq.
  rewrite lookup_insert_ne by discriminate. rewrite lookup_delete_ne by discriminate.
  rewrite <- app_assoc. repeat split. exact Hold.
Qed.

Lemma cert_without_certificate_leaves_new_key_with_old_cert_witness :
  let X := demo true (inr {| code := VNum 0; cert_key := Some (js "new-key");
                             cert_cert := None |}) in
  let s := demo_loaded {[ "gatekeeper_recreatecert" := VBool true ]} [] in
  exists s',
    processProps X s = Ret tt s'
    /\ data_at "gatekeeper_sslkey" s' = Some (VStr (js "new-key"))
    /\ data_at "gatekeeper_sslcert" s' = Some (VStr (js "old-cert")).
Proof.
  intros X s.
  destruct (cert_without_certificate_leaves_new_key_with_old_cert X s s
              {| code := VNum 0; cert_key := Some (js "new-key"); cert_cert := None |}
              (js "new-key")
              ltac:(vm_compute; reflexivity) ltac:(vm_compute; reflexivity)
              ltac:(vm_compute; reflexivity) eq_refl eq_refl eq_refl)
    as (s' & E & H1 & H2 & _).
  exists s'. split; [exact E |]. split; [exact H1 |]. rewrite H2. vm_compute. reflexivity.
Defined.

Lemma createKeys_one_record_per_identifier_witness :
  let X := demo true demo_cert_ok in
  let s := demo_state demo_env ∅ [] in
  createKeys X [ (js "a", [js "stats"]); (js "b", [js "stats"; js "admin"]) ] [] [] s
  = Ret ([VStr (js "a=secret0"); VStr (js "b=secret1")],
         [VStr (js "a=secret0 stats"); VStr (js "b=secret1 stats,admin")])
        (set_rng 2 s)
  /\ exists s', createKeys X [ (js "a", [js "stats"]); (js "b", []) ] [] [] s
                = Throw "TypeError" s'.
Proof.
  intros X s. split.
  - rewrite (proj1 (createKeys_one_record_per_identifier X
                      [ (js "a", [js "stats"]); (js "b", [js "stats"; js "admin"]) ] s)
               ltac:(repeat constructor; discriminate)).
    vm_compute. reflexivity.
  - apply (proj2 (createKeys_one_record_per_identifier X
                    [ (js "a", [js "stats"]); (js "b", []) ] s)).
    apply Exists_cons_tl, Exists_cons_hd. by right.
Defined.

(** ** More on [writeFiles] *)

(** What one path property becomes. *)
Definition resolvedPath (d : gmap string value) (p : string) : value :=
  if strict_eq (getp d p) (VStr (js "_custom"))
  then js_or (getp d (p ++ "_custom")%string) (VStr [])
  else getp d p.

Lemma resolveCustomPath_self d p : getp (resolveCustomPath d p) p = resolvedPath d p.
Proof.
  unfold resolveCustomPath, resolvedPath.
  destruct (strict_eq _ _); [| reflexivity]. unfold getp at 1. by rewrite lookup_insert_eq.
Qed.

Lemma resolveCustomPaths_each l :
  NoDup l -> (forall p, p ∈ l -> (p ++ "_custom")%string ∉ l) ->
  forall d p, p ∈ l -> getp (fold_left resolveCustomPath l d) p = resolvedPath d p.
Proof.
  induction l as [| q l IH]; intros Hnd Hc d p Hp; [by apply elem_of_nil in Hp |].
  apply NoDup_cons in Hnd as [Hq Hnd]. cbn [fold_left].
  apply elem_of_cons in Hp as [-> | Hp].
  - unfold getp at 1. rewrite resolveCustomPaths_other by exact Hq.
    apply resolveCustomPath_self.
  - rewrite IH; [| exact Hnd | intros x Hx; specialize (Hc x); set_solver | exact Hp].
    unfold resolvedPath, getp.
    assert (p <> q) as Hpq by (intros ->; contradiction).
    assert ((p ++ "_custom")%string <> q) as Hcq.
    { intros Heq. apply (Hc p); [set_solver |]. rewrite Heq. set_solver. }
    by rewrite !resolveCustomPath_other.
Qed.

(** X15. Resolving the custom paths (lines 337-341) changes the six path
    properties only: each becomes its [_custom] companion, or the empty
    string when that is missing or falsy, if it was the marker [_custom],
    and stays what it was otherwise, always as read from the document
    before the loop; every other property, the companions included, is
    kept. *)
Theorem custom_paths_resolved_from_original d :
  let d' := fold_left resolveCustomPath pathProps d in
  (forall k, k ∉ pathProps -> d' !! k = d !! k)
  /\ (forall p, p ∈ pathProps -> getp d' p = resolvedPath d p).
Proof.
  split.
  - intros k Hk. by apply resolveCustomPaths_other.
  - apply resolveCustomPaths_each.
    + apply (bool_decide_unpack _). vm_compute. exact I.
    + intros p Hp. unfold pathProps in *.
      repeat (apply elem_of_cons in Hp as [-> | Hp]);
        try (by apply elem_of_nil in Hp);
        apply (bool_decide_unpack _); vm_compute; exact I.
Qed.

Lemma custom_paths_resolved_from_original_witness :
  let d : gmap string value :=
    {[ "bitcoin_datapath" := VStr (js "_custom");
       "bitcoin_datapath_custom" := VStr (js "/mnt/bitcoin");
       "proxy_datapath" := VStr (js "_custom");
       "lightning_datapath" := VStr (js "/var/lightning") ]} in
  let d' := fold_left resolveCustomPath pathProps d in
  getp d' "bitcoin_datapath" = VStr (js "/mnt/bitcoin")
  /\ getp d' "proxy_datapath" = VStr []
  /\ getp d' "lightning_datapath" = VStr (js "/var/lightning")
  /\ d' !! "bitcoin_datapath_custom" = Some (VStr (js "/mnt/bitcoin")).
Proof.
  intros d d'.
  destruct (custom_paths_resolved_from_original d) as [Hother Heach].
  fold d' in Hother, Heach.
  rewrite !Heach by (apply (bool_decide_unpack _); vm_compute; exact I).
  rewrite Hother by (apply (bool_decide_unpack _); vm_compute; exact I).
  repeat split; vm_compute; reflexivity.
Defined.

Lemma writeClientKeys_without_information X s :
  truthy (clientInformationOf (data (config (this s)))) = false ->
  writeClientKeys X s
  = Ret tt (set_console (fun c => c ++ [msg_create keyArchiveFileName]) s).
Proof.
  intros H. unfold writeClientKeys. do 2 run_step.
  cbn [this config data set_console]. rewrite H. reflexivity.
Qed.

Lemma dir_error_None d q : dir_error d q = None <-> d !! q = Some Dir.
Proof.
  unfold dir_error. destruct (d !! q) as [[c |] |]; [| done |];
    (split; [| discriminate]); by destruct (nearest _ _ _) as [[|] |].
Qed.

(** X16. When the document that reaches the client key step has no key
    records, or key records without client information, [writeFiles]
    announces the client key archive on the console but neither deletes nor
    writes it, whatever the passwords are, and goes on to the status file.
    If the directory of the status file exists and the status path is not
    itself a directory, [writeFiles] returns and the disk is the disk the
    templates step left, plus the status file with status 0; otherwise the
    write throws and the disk is the disk the templates step left. *)
Theorem status_written_though_no_client_archive X s s1 :
  writeConfigAndTemplates X s = Ret tt s1 ->
  truthy (clientInformationOf (data (config (this s1)))) = false ->
  let s2 := set_console (fun c => c ++ [msg_create keyArchiveFileName]) s1 in
  (fs s1 !! parent (exitStatusPath X) = Some Dir ->
   fs s1 !! exitStatusPath X <> Some Dir ->
   writeFiles X s
   = Ret tt (set_fs (insert (exitStatusPath X) (File (js "EXIT_STATUS=0"))) s2))
  /\ (fs s1 !! parent (exitStatusPath X) <> Some Dir
      \/ fs s1 !! exitStatusPath X = Some Dir ->
      exists e, e ∈ ["ENOENT"; "ENOTDIR"; "EISDIR"] /\ writeFiles X s = Throw e s2).
Proof.
  intros Hw Hinfo s2. unfold writeFiles.
  rewrite (bind_Ret _ _ _ _ _ Hw).
  rewrite (bind_Ret _ _ _ _ _ (writeClientKeys_without_information X s1 Hinfo)).
  fold s2. unfold writeFileSync. change (fs s2) with (fs s1).
  pose proof (dir_error_None (fs s1) (parent (exitStatusPath X))) as Hd.
  split.
  - intros Hp Hdir. apply Hd in Hp. rewrite Hp.
    destruct (fs s1 !! exitStatusPath X) as [[c |] |]; congruence.
  - intros Hbad. destruct (dir_error _ _) as [e |] eqn:He.
    + exists e. split; [| reflexivity].
      unfold dir_error in He.
      destruct (fs s1 !! parent (exitStatusPath X)) as [[c |] |];
        try discriminate; destruct (nearest _ _ _) as [[c' |] |];
        injection He as <-; apply (bool_decide_unpack _); vm_compute; exact I.
    + destruct Hbad as [Hp | Hdir]; [exfalso; apply Hp; by apply Hd |].
      rewrite Hdir. exists "EISDIR".
      split; [apply (bool_decide_unpack _); vm_compute; exact I | reflexivity].
Qed.

Lemma status_written_though_no_client_archive_witness :
  let X := demo true demo_cert_ok in
  let s := set_this (set_sessionData (insert "gatekeeper_clientkeyspassword" (VStr (js "old"))))
             (demo_loaded {[ "gatekeeper_keys" := VObj 1 [("configEntries", VArr 2 [VNull])] ]}
                []) in
  exists s',
    writeFiles X s = Ret tt s'
    /\ fs s' !! js "/data/client.7z" = Some (File (js "[keys.txt]old-info"))
    /\ fs s' !! js "/data/exitStatus.sh" = Some (File (js "EXIT_STATUS=0")).
Proof.
  intros X s.
  destruct (status_written_though_no_client_archive X s
              (final (writeConfigAndTemplates X s))
              ltac:(vm_compute; reflexivity) ltac:(vm_compute; reflexivity)) as [E _].
  eexists. split; [apply E; vm_compute; [reflexivity | discriminate] |].
  split; vm_compute; reflexivity.
Defined.

(** X20. When the client information of the document is a truthy value
    that is not an array, the client key step throws a TypeError at
    [join], after the stale archive was deleted: [writeFiles] ends there,
    with the old client key archive gone if the password had changed, and
    nothing written in its place. *)
Theorem client_information_not_array_throws_after_delete X s info :
  clientInformationOf (data (config (this s))) = info ->
  truthy info = true ->
  (forall ref items, info <> VArr ref items) ->
  fs s !! destinationPath X keyArchiveFileName <> Some Dir ->
  let p := destinationPath X keyArchiveFileName in
  let deleted :=
    strict_neq (getp (sessionData (this s)) "gatekeeper_clientkeyspassword")
               (getp (data (config (this s))) "gatekeeper_clientkeyspassword")
    && bool_decide (is_Some (fs s !! p)) in
  exists s',
    writeClientKeys X s = Throw "TypeError" s'
    /\ fs s' = (if deleted then delete p (fs s) else fs s).
Proof.
  intros Hi Ht Hna Hdir p deleted.
  assert (forall s0, writeKeyArchive X info s0 = Throw "TypeError" s0) as Hthrow.
  { intros s0. unfold writeKeyArchive. rewrite (bind_Ret get _ s0 s0 s0 eq_refl). cbv beta.
    destruct info; try reflexivity. exfalso. by eapply Hna. }
  unfold writeClientKeys, removeStaleKeyArchive.
  do 2 run_step. cbn [this config data set_console]. rewrite Hi, Ht.
  unfold bind at 1. unfold bind at 1. unfold get at 1. unfold bind at 1.
  unfold existsSync at 1.
  cbn [this config data sessionData set_console fs]. fold p. fold deleted.
  destruct deleted eqn:Hd.
  - unfold deleted in Hd. apply andb_prop in Hd as [_ Hex].
    apply bool_decide_eq_true in Hex. destruct Hex as [n Hn].
    unfold unlinkSync. cbn [fs set_console]. rewrite Hn.
    destruct n as [c |]; [| exfalso; apply Hdir; exact Hn].
    rewrite Hthrow. eexists. split; reflexivity.
  - unfold ret. rewrite Hthrow. eexists. split; reflexivity.
Qed.

Lemma client_information_not_array_throws_after_delete_witness :
  let X := demo true demo_cert_ok in
  let s := set_this (set_sessionData (insert "gatekeeper_clientkeyspassword" (VStr (js "old"))))
             (demo_loaded {[ "gatekeeper_keys" :=
                               VObj 1 [ ("configEntries", VArr 2 [VNull]);
                                        ("clientInformation", VStr (js "000=secret")) ] ]}
                []) in
  exists s',
    writeClientKeys X s = Throw "TypeError" s'
    /\ fs s' !! js "/data/client.7z" = None.
Proof.
  intros X s.
  destruct (client_information_not_array_throws_after_delete X s (VStr (js "000=secret"))
              ltac:(vm_compute; reflexivity) ltac:(vm_compute; reflexivity)
              ltac:(discriminate) ltac:(vm_compute; discriminate)) as (s' & E & Hfs).
  exists s'. split; [exact E |]. rewrite Hfs. vm_compute. reflexivity.
Defined.

(** ** The constructor and the session *)

(** X17. When the constructor returns, no status file is on the disk, every
    other path holds what it held, and the new application has the
    features of [features.json] and empty session data. It throws only if
    the status path is a directory. *)
Theorem constructor_removes_stale_status_file X s :
  (forall s', constructor X s = Ret tt s' ->
     fs s' !! exitStatusPath X = None
     /\ (forall p, p <> exitStatusPath X -> fs s' !! p = fs s !! p)
     /\ features (this s') = features_json X
     /\ sessionData (this s') = ∅)
  /\ (fs s !! exitStatusPath X <> Some Dir -> ending_of (constructor X s) = Returned).
Proof.
  unfold constructor. run_step.
  unfold bind, existsSync, unlinkSync. cbn [fs set_this].
  destruct (fs s !! exitStatusPath X) as [[c |] |] eqn:E.
  - rewrite bool_decide_eq_true_2 by eauto. cbn [fs set_this]. rewrite E.
    split; [| reflexivity]. intros s' [= <-]. cbn [fs set_fs this set_this features sessionData].
    split; [apply lookup_delete_eq |]. split; [| by split].
    intros p Hp. by apply lookup_delete_ne.
  - rewrite bool_decide_eq_true_2 by eauto. cbn [fs set_this]. rewrite E.
    split; [discriminate | congruence].
  - rewrite bool_decide_eq_false_2 by (intros [? ?]; discriminate).
    split; [| reflexivity]. intros s' [= <-]. cbn [fs this set_this features sessionData].
    split; [exact E |]. split; [| by split]. reflexivity.
Qed.

Lemma constructor_removes_stale_status_file_witness :
  let X := demo true demo_cert_ok in
  let s := demo_state demo_env
             (<[js "/data/exitStatus.sh" := File (js "EXIT_STATUS=0")]> demo_disk) [] in
  ending_of (constructor X s) = Returned
  /\ fs (final (constructor X s)) = demo_disk.
Proof.
  intros X s. split.
  - apply (proj2 (constructor_removes_stale_status_file X s)). vm_compute. discriminate.
  - vm_compute. reflexivity.
Defined.

(** X18. [initSession] throws, leaving everything as it was, when neither a
    non-empty [SETUP_DIR] nor [HOME] is in the environment; in every other
    environment it returns. *)
Theorem initSession_needs_setup_dir_or_home X options s :
  (truthy (env_get s "SETUP_DIR") = false -> env s !! "HOME" = None ->
   initSession X options s = Throw "TypeError" s)
  /\ (truthy (env_get s "SETUP_DIR") = true \/ is_Some (env s !! "HOME") ->
      ending_of (initSession X options s) = Returned).
Proof.
  unfold initSession. rewrite (bind_Ret get _ s s s eq_refl). cbv beta.
  unfold bind at 1. split.
  - intros Hs Hh. rewrite Hs. unfold env_get at 1. rewrite Hh. reflexivity.
  - intros H. destruct (truthy (env_get s "SETUP_DIR")) eqn:Hs.
    + unfold ret at 1. do 3 run_step.
      destruct (strict_eq (env_get s "VERSION_OVERRIDE") (VStr (js "true"))); reflexivity.
    + destruct H as [H | [h Hh]]; [discriminate |].
      unfold env_get at 1. rewrite Hh. unfold ret at 1. do 3 run_step.
      destruct (strict_eq (env_get s "VERSION_OVERRIDE") (VStr (js "true"))); reflexivity.
Qed.

Lemma initSession_needs_setup_dir_or_home_witness :
  let X := demo true demo_cert_ok in
  initSession X None (demo_state ∅ ∅ []) = Throw "TypeError" (demo_state ∅ ∅ [])
  /\ ending_of (initSession X None (demo_state demo_env ∅ [])) = Returned.
Proof.
  intros X. split.
  - apply (proj1 (initSession_needs_setup_dir_or_home X None (demo_state ∅ ∅ [])));
      reflexivity.
  - apply (proj2 (initSession_needs_setup_dir_or_home X None (demo_state demo_env ∅ []))).
    right. vm_compute. eauto.
Defined.

(** ** Unattended runs never wait *)

Lemma initSession_keeps_outside {B} X options (f : state -> B) :
  blind_to_this f -> blind_to_rng f -> keeps f (initSession X options).
Proof.
  intros Ht Hr. unfold initSession, setSession.
  keeps_auto; first [ by apply keeps_draw | apply keeps_modify; intros s0; apply Ht ].
Qed.

Lemma startAfterSetup_unattended X s :
  truthy (getp (sessionData (this s)) "noWizard") = true ->
  ending_of (startAfterSetup X s) <> Waiting
  /\ keyboard (final (startAfterSetup X s)) = keyboard s.
Proof.
  intros Hno. unfold startAfterSetup. rewrite (bind_Ret get _ s s s eq_refl). cbv beta.
  assert (exists s2,
            (if negb (truthy (getp (sessionData (this s)) "noSplashScreen"))
             then forEach (splash_show X) console_log else ret tt) s = Ret tt s2
            /\ this s2 = this s /\ keyboard s2 = keyboard s) as (s2 & E2 & Ht2 & Hk2).
  { destruct (negb _).
    - destruct (forEach_console_log (splash_show X) s) as (s2 & E & Ht & _ & _).
      exists s2. split; [exact E |]. split; [exact Ht |].
      apply (keeps_Ret keyboard _ _ _ _ (keeps_forEach keyboard _ _
               (fun l => keeps_console_log keyboard l ltac:(intros ? ?; reflexivity))) E).
    - exists s. auto. }
  rewrite (bind_Ret _ _ _ _ _ E2). do 2 run_step.
  cbn [this set_next_ref]. rewrite Ht2, Hno. cbn [negb andb].
  set (s3 := set_next_ref (N.succ (next_ref s2)) s2).
  match goal with |- ending_of (?m s3) <> _ /\ _ =>
    assert (never Waiting m) as Hnever;
    [| assert (keeps keyboard m) as Hkeeps ]
  end.
  - never_auto; first [ apply never_waiting_processProps | apply never_waiting_writeFiles ].
  - keeps_auto;
      first [ apply processProps_keeps_outside; intros ? ?; reflexivity
            | apply writeFiles_keeps_outside; intros ? ?; reflexivity ].
  - split; [apply Hnever |]. rewrite Hkeeps. exact Hk2.
Qed.

(** X19. An unattended run ([noWizard]) on an existing archive with a
    non-empty [CFG_PASSWORD] never waits for the operator, however it ends,
    and reads none of the answers that may be queued. *)
Theorem unattended_start_never_waits X options s (pw : jsstring) :
  truthy (getp (default ∅ options) "noWizard") = true ->
  is_Some (fs s !! destinationPath X configArchiveFileName) ->
  env s !! "CFG_PASSWORD" = Some pw ->
  pw <> [] ->
  ending_of (start X options s) <> Waiting
  /\ keyboard (final (start X options s)) = keyboard s.
Proof.
  intros Hno Hex He Hne.
  pose proof (never_waiting_initSession X options s) as Hn0.
  pose proof (initSession_keeps_outside X options (fun s => (fs s, env s, keyboard s))
                ltac:(intros ? ?; reflexivity) ltac:(intros ? ?; reflexivity) s) as Hk0.
  remember (start X options s) as o eqn:Ho.
  unfold start in Ho. unfold bind at 1 in Ho.
  destruct (initSession X options s) as [[] s0 | | |] eqn:Hi;
    cbn [final ending_of] in *;
    [| subst o; injection Hk0 as _ _ Hkb; split; [exact Hn0 | exact Hkb] ..].
  injection Hk0 as Hfs0 Henv0 Hkb0.
  assert (ending_of (setupConfigArchive X s0) <> Waiting
          /\ keyboard (final (setupConfigArchive X s0)) = keyboard s0) as [Hn1 Hk1].
  { rewrite (setupConfigArchive_with_cfg_password X s0 pw);
      [| by rewrite Hfs0 | by rewrite Henv0 | exact Hne].
    split; [apply never_waiting_afterPassword |].
    exact (f_equal fst (afterPassword_keeps_password X _)). }
  pose proof (setupConfigArchive_keeps_session X "noWizard"
                ltac:(discriminate) ltac:(discriminate) s0) as Hs1.
  unfold bind at 1 in Ho.
  destruct (setupConfigArchive X s0) as [[] s1 | | |] eqn:Hs;
    cbn [final ending_of] in *;
    [| subst o; split; [exact Hn1 | by rewrite <- Hkb0] ..].
  destruct (startAfterSetup_unattended X s1) as [Hn2 Hk2].
  { unfold session_at in Hs1. unfold getp. rewrite Hs1.
    pose proof (initSession_noWizard X options s s0 Hi) as H0.
    unfold session_at in H0. rewrite H0. exact Hno. }
  subst o. split; [exact Hn2 | by rewrite Hk2, Hk1].
Qed.

Lemma unattended_start_never_waits_witness :
  let X := demo true demo_cert_ok in
  let s := demo_state (<["CFG_PASSWORD" := js "wrong"]> demo_env) demo_disk
             [VStr (js "secret")] in
  ending_of (start X (Some demo_unattended) s) <> Waiting
  /\ keyboard (final (start X (Some demo_unattended) s)) = [VStr (js "secret")].
Proof.
  intros X s.
  apply (unattended_start_never_waits X (Some demo_unattended) s (js "wrong"));
    [vm_compute; reflexivity | vm_compute; eauto | vm_compute; reflexivity | discriminate].
Defined.
